(** * Fantrove Console API: a shallow embedding of the Cloudflare Worker

    The repository holds two texts of the Worker:
      - [src/worker.js]           (module [Worker] below), and
      - [src/unnamed/part_000]    (module [Part000] below).
    Both export one [fetch] entry point and the same five helpers.  They
    differ in the cross-origin header table, in the order and guard of the
    [/health] route, in the [offset] parameter of the reader, in the text of
    two error messages and in the empty-array guard of the batch writer.
    Everything they share word for word ([insertSingleLog], the payload
    literal) is embedded once, in [Shared].

    Layout: JavaScript values and the built-ins the Worker calls; the
    platform (requests, responses, the outbound [fetch], the clock) as a
    state-and-exception monad over an explicit host; the two Workers; the
    specification's statements; the theorems. *)

From Stdlib Require Import ZArith List String Ascii Bool Lia PeanoNat.
From Stdlib Require Import Floats DecimalString.
Import ListNotations.

Local Open Scope string_scope.
Local Open Scope Z_scope.

Set Warnings "-register-all".

(* ====================================================================== *)
(** ** JavaScript values *)
(* ====================================================================== *)

Module JS.

(** A JavaScript value as the Worker meets it: what [JSON.parse] produces,
    plus [undefined] (a missing property).  Numbers are IEEE doubles.
    An object is its list of own properties, in insertion order; strings are
    byte strings (the UTF-8 text of the JavaScript string). *)
Inductive value : Type :=
  | VUndefined
  | VNull
  | VBool (b : bool)
  | VNum (n : float)
  | VStr (s : string)
  | VArr (items : list value)
  | VObj (props : list (string * value)).

(** The [Number] of an integer count or status (exact below 2^53). *)
Definition Number (z : Z) : float :=
  if z <? 0 then PrimFloat.opp (PrimFloat.of_uint63 (Uint63.of_Z (- z)))
  else PrimFloat.of_uint63 (Uint63.of_Z z).

(** ToBoolean: [undefined], [null], [false], [0], [-0], [NaN] and the empty
    string are falsy; every object and array is truthy. *)
Definition truthy (v : value) : bool :=
  match v with
  | VUndefined | VNull => false
  | VBool b => b
  | VNum n => negb (PrimFloat.is_zero n || PrimFloat.is_nan n)
  | VStr s => negb (String.eqb s "")
  | VArr _ | VObj _ => true
  end.

(** [a || b] *)
Definition or_else (a b : value) : value := if truthy a then a else b.

(** An exception object: its constructor name and its [message]. *)
Record error : Type := mkError { name : string; message : string }.

Definition Error (msg : string) : error := mkError "Error" msg.
Definition TypeError (msg : string) : error := mkError "TypeError" msg.

Inductive result (A : Type) : Type :=
  | Ok (a : A)
  | Throw (e : error).
Arguments Ok {A} a.
Arguments Throw {A} e.

Fixpoint lookup (k : string) (props : list (string * value)) : value :=
  match props with
  | [] => VUndefined
  | (k', v) :: rest => if String.eqb k k' then v else lookup k rest
  end.

(** Property read [v.k].  Reading a property of [null] or [undefined]
    throws a TypeError (the text is V8's).  On an object it is the own
    property or [undefined]; on a primitive or an array it is [undefined]:
    none of the names the Worker reads ([level], [message], [logs],
    [session_id], [category], [source], [meta], [stack_trace],
    [user_agent], [url]) is a member of a built-in prototype. *)
Definition get (v : value) (k : string) : result value :=
  match v with
  | VUndefined =>
      Throw (TypeError ("Cannot read properties of undefined (reading '" ++ k ++ "')"))
  | VNull =>
      Throw (TypeError ("Cannot read properties of null (reading '" ++ k ++ "')"))
  | VObj props => Ok (lookup k props)
  | _ => Ok VUndefined
  end.

(** The first UTF-16 code unit of a string, as a string.  A character of
    the Basic Multilingual Plane is its own unit (one to three bytes of
    UTF-8); of a character beyond it (four bytes) the unit is the high
    surrogate, written in the generalised UTF-8 form of a lone surrogate. *)
Definition first_unit (s : string) : string :=
  match s with
  | EmptyString => EmptyString
  | String c0 rest =>
      let n0 := Z.of_nat (nat_of_ascii c0) in
      if n0 <? 192 then String c0 ""
      else if n0 <? 224 then
        match rest with
        | String c1 _ => String c0 (String c1 "")
        | _ => String c0 ""
        end
      else if n0 <? 240 then
        match rest with
        | String c1 (String c2 _) => String c0 (String c1 (String c2 ""))
        | _ => String c0 ""
        end
      else
        match rest with
        | String c1 (String c2 (String c3 _)) =>
            let n1 := Z.of_nat (nat_of_ascii c1) in
            let n2 := Z.of_nat (nat_of_ascii c2) in
            let n3 := Z.of_nat (nat_of_ascii c3) in
            let cp := (n0 mod 8) * 262144 + (n1 mod 64) * 4096 + (n2 mod 64) * 64 + n3 mod 64 in
            let high := 55296 + (cp - 65536) / 1024 in
            let byte (z : Z) := ascii_of_nat (Z.to_nat z) in
            String (byte (224 + high / 4096))
              (String (byte (128 + (high / 64) mod 64))
                 (String (byte (128 + high mod 64)) ""))
        | _ => String c0 ""
        end
  end.

(** [result[0]] *)
Definition index0 (v : value) : result value :=
  match v with
  | VUndefined =>
      Throw (TypeError "Cannot read properties of undefined (reading '0')")
  | VNull =>
      Throw (TypeError "Cannot read properties of null (reading '0')")
  | VArr items => Ok (hd VUndefined items)
  | VObj props => Ok (lookup "0" props)
  | VStr EmptyString => Ok VUndefined
  | VStr s => Ok (VStr (first_unit s))
  | _ => Ok VUndefined
  end.

Definition Array_isArray (v : value) : bool :=
  match v with VArr _ => true | _ => false end.

(** The elements of an array (used only behind [Array_isArray]). *)
Definition elements (v : value) : list value :=
  match v with VArr items => items | _ => [] end.

(** [arr.slice(0, n)] *)
Definition slice0 {A : Type} (n : nat) (arr : list A) : list A := firstn n arr.

(* ---------------------------------------------------------------------- *)
(** *** Numbers read from and written into text *)

(** [parseInt] and the arithmetic on its result are carried out on exact
    integers; [None] is NaN.  A double holds every integer of magnitude up
    to 2^53 exactly, and rounding is monotone, so [|| 100], [|| 0] and
    [Math.min(_, 500)] agree with the exact computation on every input;
    only the *text* of an integer beyond 2^53 depends on the rounding, and
    that text is left to the host (see [Number_toString]). *)
Definition Num : Type := option Z.

Definition is_space (c : ascii) : bool :=
  let n := nat_of_ascii c in
  ((9 <=? n) && (n <=? 13) || (n =? 32))%nat.

(** Leading white space and line terminators, as [parseInt] strips them:
    the ASCII ones and U+00A0, U+1680, U+2000..U+200A, U+2028, U+2029,
    U+202F, U+205F, U+3000, U+FEFF in their UTF-8 form. *)
Fixpoint trimStart (s : string) : string :=
  match s with
  | String c rest =>
      if is_space c then trimStart rest
      else
        match s with
        | String "194" (String "160" r) => trimStart r
        | String "225" (String "154" (String "128" r)) => trimStart r
        | String "226" (String "128" (String d r)) =>
            let n := nat_of_ascii d in
            if ((128 <=? n) && (n <=? 138) || (n =? 168) || (n =? 169) || (n =? 175))%nat
            then trimStart r else s
        | String "226" (String "129" (String "159" r)) => trimStart r
        | String "227" (String "128" (String "128" r)) => trimStart r
        | String "239" (String "187" (String "191" r)) => trimStart r
        | _ => s
        end
  | EmptyString => s
  end.

Definition digit_value (c : ascii) : option Z :=
  let n := Z.of_nat (nat_of_ascii c) in
  if (48 <=? n) && (n <=? 57) then Some (n - 48)
  else if (97 <=? n) && (n <=? 122) then Some (n - 87)
  else if (65 <=? n) && (n <=? 90) then Some (n - 55)
  else None.

(** The longest prefix of digits of radix [R], folded into its value;
    [None] when there is no digit at all. *)
Fixpoint digits (R : Z) (acc : option Z) (s : string) : option Z :=
  match s with
  | String c rest =>
      match digit_value c with
      | Some d =>
          if d <? R then digits R (Some (match acc with Some a => a * R + d | None => d end)) rest
          else acc
      | None => acc
      end
  | EmptyString => acc
  end.

(** [parseInt(string)] with no radix: white space, a sign, an optional
    [0x]/[0X] prefix selecting radix 16, then digits. *)
Definition parseInt (input : string) : Num :=
  let s0 := trimStart input in
  let '(sign, s1) :=
    match s0 with
    | String "-" r => (-1, r)
    | String "+" r => (1, r)
    | _ => (1, s0)
    end in
  let '(R, s2) :=
    match s1 with
    | String "0" (String "x" r) => (16, r)
    | String "0" (String "X" r) => (16, r)
    | _ => (10, s1)
    end in
  match digits R None s2 with
  | Some mathInt => Some (sign * mathInt)
  | None => None
  end.

(** ToString of [searchParams.get(...)], whose absence is [null]. *)
Definition ToString_nullable (v : option string) : string :=
  match v with Some s => s | None => "null" end.

(** [n || d] on numbers: NaN and 0 are falsy. *)
Definition num_or (n : Num) (d : Z) : Z :=
  match n with
  | Some z => if z =? 0 then d else z
  | None => d
  end.

Definition Math_min (a b : Z) : Z := Z.min a b.

Definition decimal (z : Z) : string := NilZero.string_of_int (Z.to_int z).

(** Number to text inside a template literal.  An integer of magnitude at
    most 2^53 prints as its decimal digits; beyond that the engine prints
    the nearest double, and [inexact] stands for that text. *)
Definition Number_toString (inexact : Z -> string) (z : Z) : string :=
  if Z.abs z <=? 2 ^ 53 then decimal z else inexact z.

(* ---------------------------------------------------------------------- *)
(** *** encodeURIComponent *)

Definition unreserved (c : ascii) : bool :=
  let n := nat_of_ascii c in
  ((48 <=? n) && (n <=? 57) || (65 <=? n) && (n <=? 90) || (97 <=? n) && (n <=? 122)
   || existsb (Nat.eqb n) [45; 95; 46; 33; 126; 42; 39; 40; 41])%nat.

Definition hex_digit (n : nat) : ascii :=
  ascii_of_nat (if (n <? 10)%nat then 48 + n else 55 + n).

(** Every byte outside [A-Z a-z 0-9 - _ . ! ~ * ' ( )] becomes [%XX]. *)
Fixpoint encodeURIComponent (s : string) : string :=
  match s with
  | EmptyString => EmptyString
  | String c rest =>
      if unreserved c then String c (encodeURIComponent rest)
      else
        let n := nat_of_ascii c in
        String "%" (String (hex_digit (n / 16)) (String (hex_digit (n mod 16))
          (encodeURIComponent rest)))
  end.

(* ---------------------------------------------------------------------- *)
(** *** Date.prototype.toISOString *)

(** [width] decimal digits of [n], zero padded. *)
Fixpoint fixed (width : nat) (n : Z) : string :=
  match width with
  | O => ""
  | S w => fixed w (n / 10) ++ String (ascii_of_nat (48 + Z.to_nat (n mod 10))) ""
  end.

(** Year, month and day of the day number [day] (days since 1970-01-01) in
    the proleptic Gregorian calendar. *)
Definition civil (day : Z) : Z * Z * Z :=
  let z := day + 719468 in
  let era := z / 146097 in
  let doe := z - era * 146097 in
  let yoe := (doe - doe / 1460 + doe / 36524 - doe / 146096) / 365 in
  let doy := doe - (365 * yoe + yoe / 4 - yoe / 100) in
  let mp := (5 * doy + 2) / 153 in
  let d := doy - (153 * mp + 2) / 5 + 1 in
  let m := if mp <? 10 then mp + 3 else mp - 9 in
  let y := yoe + era * 400 + (if m <=? 2 then 1 else 0) in
  (y, m, d).

(** [new Date(t).toISOString()] for a time value [t] in milliseconds:
    [YYYY-MM-DDTHH:mm:ss.sssZ], with a signed six-digit year outside
    0..9999.  (The RangeError of a time value beyond 8.64e15 is not
    modelled: [Date.now()] plus thirty days does not reach it.) *)
Definition toISOString (t : Z) : string :=
  let msPerDay := 86400000 in
  let '(y, m, d) := civil (t / msPerDay) in
  let ms := t mod msPerDay in
  let year :=
    if (0 <=? y) && (y <=? 9999) then fixed 4 y
    else (if y <? 0 then "-" else "+") ++ fixed 6 (Z.abs y) in
  year ++ "-" ++ fixed 2 m ++ "-" ++ fixed 2 d ++ "T"
    ++ fixed 2 (ms / 3600000) ++ ":" ++ fixed 2 (ms / 60000 mod 60) ++ ":"
    ++ fixed 2 (ms / 1000 mod 60) ++ "." ++ fixed 3 (ms mod 1000) ++ "Z".

End JS.

Import JS.


(* ====================================================================== *)
(** ** The platform: requests, responses, the backend and the clock *)
(* ====================================================================== *)

Module Platform.

(** A [Headers] object: one entry per header, names in lower case, as the
    Fetch standard keeps them. *)
Definition Headers : Type := list (string * string).

Definition lower (c : ascii) : ascii :=
  let n := nat_of_ascii c in
  if ((65 <=? n) && (n <=? 90))%nat then ascii_of_nat (n + 32) else c.

Fixpoint toLowerCase (s : string) : string :=
  match s with
  | EmptyString => EmptyString
  | String c rest => String (lower c) (toLowerCase rest)
  end.

Fixpoint assoc (k : string) (l : list (string * string)) : option string :=
  match l with
  | [] => None
  | (k', v) :: rest => if String.eqb k k' then Some v else assoc k rest
  end.

(** [headers.get(name)]: the name is matched without regard to case;
    [None] is [null]. *)
Definition Headers_get (h : Headers) (name : string) : option string :=
  assoc (toLowerCase name) h.

(** [url.searchParams.get(name)]: the first value of that name, or null. *)
Definition searchParams_get (q : list (string * string)) (name : string) : option string :=
  assoc name q.

Definition nullable (o : option string) : value :=
  match o with Some s => VStr s | None => VNull end.

(** The inbound request: its method, the path and the decoded query of
    [new URL(request.url)], its headers, and what [request.json()] settles
    to (a parsed body, or the SyntaxError of a body that is not JSON). *)
Record Request : Type := mkRequest {
  method : string;
  pathname : string;
  searchParams : list (string * string);
  headers : Headers;
  json : result value
}.

(** The text of a body: nothing, a literal text, or [JSON.stringify(v)]. *)
Inductive Body : Type :=
  | Empty
  | Plain (text : string)
  | JSON_stringify (v : value).

(** [new Response(body, { status, headers })], as its three arguments:
    [response_headers] is the [headers] object of the call, in literal
    order.  What the response then carries is [sent_headers]. *)
Record Response : Type := mkResponse {
  body : Body;
  status : Z;
  response_headers : list (string * string)
}.

Definition names_content_type (hs : list (string * string)) : bool :=
  existsb (fun kv => String.eqb (toLowerCase (fst kv)) "content-type") hs.

(** The [Headers] of a constructed response: the given headers, and, for a
    body that is a string and headers that name no content type, the
    [Content-Type: text/plain;charset=UTF-8] the constructor adds. *)
Definition sent_headers (r : Response) : Headers :=
  let given := map (fun kv => (toLowerCase (fst kv), snd kv)) (response_headers r) in
  match body r with
  | Empty => given
  | Plain _ | JSON_stringify _ =>
      if names_content_type (response_headers r) then given
      else (given ++ [("content-type", "text/plain;charset=UTF-8")])%list
  end.

(** The two secrets of the deployment. *)
Record Env : Type := mkEnv {
  SUPABASE_URL : string;
  SUPABASE_ANON_KEY : string
}.

(** One outbound call [fetch(url, { method, headers, body })]. *)
Record Call : Type := mkCall {
  call_url : string;
  call_method : string;
  call_headers : list (string * string);
  call_body : Body
}.

(** What the backend answers: its status, and what [text()] and [json()]
    of the answer settle to. *)
Record Answer : Type := mkAnswer {
  answer_status : Z;
  answer_text : string;
  answer_json : result value
}.

(** [response.ok] *)
Definition ok (r : Answer) : bool :=
  (200 <=? answer_status r) && (answer_status r <=? 299).

(** Everything outside the Worker.  [clock k] is the time (ms since the
    epoch) of the [k]-th reading of the clock in this invocation;
    [backend i c] is how the [i]-th outbound call of this invocation, [c],
    ends: an answer, or a rejected promise (a network failure).  [inexact]
    is the engine's text for an integer beyond 2^53.  Outcomes are indexed
    by the position of the call, so any two calls, even with equal
    contents, may end differently. *)
Record Host : Type := mkHost {
  clock : nat -> Z;
  backend : nat -> Call -> result Answer;
  inexact : Z -> string
}.

(** What one invocation has done so far: how often it read the clock, the
    outbound calls it issued (oldest first) and what it wrote with
    [console.error]. *)
Record World : Type := mkWorld {
  ticks : nat;
  calls : list Call;
  console : list error
}.

Definition start : World := mkWorld 0 [] [].

(** A computation: it ends with a value or a thrown error, and a world. *)
Definition M (A : Type) : Type := World -> result A * World.

Definition ret {A : Type} (a : A) : M A := fun w => (Ok a, w).

Definition throw {A : Type} (e : error) : M A := fun w => (Throw e, w).

Definition bind {A B : Type} (m : M A) (k : A -> M B) : M B :=
  fun w =>
    match m w with
    | (Ok a, w') => k a w'
    | (Throw e, w') => (Throw e, w')
    end.

Definition lift {A : Type} (r : result A) : M A := fun w => (r, w).

(** [try { m } catch (error) { handler error }] *)
Definition try_catch {A : Type} (m : M A) (handler : error -> M A) : M A :=
  fun w =>
    match m w with
    | (Ok a, w') => (Ok a, w')
    | (Throw e, w') => handler e w'
    end.

Definition console_error (e : error) : M unit :=
  fun w => (Ok tt, mkWorld (ticks w) (calls w) (console w ++ [e])%list).

Section WithHost.

Variable host : Host.

(** [Date.now()], and the time of [new Date()]. *)
Definition Date_now : M Z :=
  fun w => (Ok (clock host (ticks w)), mkWorld (S (ticks w)) (calls w) (console w)).

(** The global [fetch]: the call is recorded, and ends as the host says. *)
Definition fetch (c : Call) : M Answer :=
  fun w =>
    (backend host (List.length (calls w)) c,
     mkWorld (ticks w) (calls w ++ [c])%list (console w)).

Definition show (z : Z) : string := Number_toString (inexact host) z.

End WithHost.

(** [Promise.allSettled(items.map(f))]: [f] runs on every item in array
    order, whatever became of the items before it, and each outcome is
    kept.  Every [f] used here issues at most one outbound call and, once
    that call has ended, touches nothing but its own result; so running
    the items one after another yields the calls in the order the Worker
    issues them and the outcomes the Worker collects. *)
Fixpoint allSettled_map {A B : Type} (f : A -> M B) (items : list A)
  : World -> list (result B) * World :=
  fun w =>
    match items with
    | [] => ([], w)
    | x :: rest =>
        let '(r, w1) := f x w in
        let '(rs, w2) := allSettled_map f rest w1 in
        (r :: rs, w2)
    end.

Definition Promise_allSettled_map {A B : Type} (f : A -> M B) (items : list A)
  : M (list (result B)) :=
  fun w => let '(rs, w') := allSettled_map f items w in (Ok rs, w').

Definition fulfilled {B : Type} (r : result B) : bool :=
  match r with Ok _ => true | Throw _ => false end.

Definition rejected {B : Type} (r : result B) : bool :=
  match r with Ok _ => false | Throw _ => true end.

End Platform.

Import Platform.

Declare Scope js_scope.
Delimit Scope js_scope with js.
Notation "x <- m ;; k" := (bind m (fun x => k))
  (at level 100, m at next level, right associativity) : js_scope.
Notation "m ;;; k" := (bind m (fun _ => k))
  (at level 100, right associativity) : js_scope.
Local Open Scope js_scope.

(* ====================================================================== *)
(** ** What the two files share *)
(* ====================================================================== *)

Module Shared.

Section WithHost.

Variable host : Host.

(** Thirty days in milliseconds: [30 * 24 * 60 * 60 * 1000]. *)
Definition retention : Z := 30 * 24 * 60 * 60 * 1000.

(** The payload literal of [handlePostLog] and [insertSingleLog]: the same
    ten properties in both, read from the entry [log] and from the
    request's headers, with [expires_at] taken from the clock. *)
Definition payload_of (log : value) (hs : Headers) : M value :=
  session_id <- lift (get log "session_id") ;;
  level <- lift (get log "level") ;;
  category <- lift (get log "category") ;;
  message <- lift (get log "message") ;;
  source <- lift (get log "source") ;;
  meta <- lift (get log "meta") ;;
  stack_trace <- lift (get log "stack_trace") ;;
  user_agent <- lift (get log "user_agent") ;;
  url <- lift (get log "url") ;;
  now <- Date_now host ;;
  ret (VObj
    [ ("session_id", or_else session_id (VStr "unknown"));
      ("level", level);
      ("category", or_else category (VStr "system"));
      ("message", message);
      ("source", or_else source (VStr "Unknown"));
      ("meta", or_else meta (VObj []));
      ("stack_trace", stack_trace);
      ("user_agent", or_else user_agent (nullable (Headers_get hs "User-Agent")));
      ("url", or_else url (nullable (Headers_get hs "Referer")));
      ("expires_at", VStr (toISOString (now + retention))) ]).

(** The insert call: [POST <SUPABASE_URL>/rest/v1/console_logs]. *)
Definition insert_call (env : Env) (prefer : string) (payload : value) : Call :=
  mkCall (SUPABASE_URL env ++ "/rest/v1/console_logs") "POST"
    [ ("apikey", SUPABASE_ANON_KEY env);
      ("Authorization", "Bearer " ++ SUPABASE_ANON_KEY env);
      ("Content-Type", "application/json");
      ("Prefer", prefer) ]
    (JSON_stringify payload).

(** [insertSingleLog(env, log, headers)] *)
Definition insertSingleLog (env : Env) (log : value) (hs : Headers) : M value :=
  payload <- payload_of log hs ;;
  response <- fetch host (insert_call env "return=minimal" payload) ;;
  if negb (ok response) then
    throw (Error ("Insert failed: " ++ show host (answer_status response)))
  else
    ret (VObj [("success", VBool true)]).

End WithHost.

End Shared.

(* ====================================================================== *)
(** ** The Worker of [src/worker.js] *)
(* ====================================================================== *)

Module Worker.

Definition CORS_HEADERS : list (string * string) :=
  [ ("Access-Control-Allow-Origin", "*");
    ("Access-Control-Allow-Methods", "GET, POST, OPTIONS");
    ("Access-Control-Allow-Headers", "Content-Type, Authorization");
    ("Access-Control-Max-Age", "86400") ].

(** [jsonResponse(data, status = 200)] *)
Definition jsonResponse (data : value) (status : Z) : Response :=
  mkResponse (JSON_stringify data) status
    (("Content-Type", "application/json") :: CORS_HEADERS).

Section WithHost.

Variable host : Host.

Definition read_call (env : Env) (query : string) : Call :=
  mkCall query "GET"
    [ ("apikey", SUPABASE_ANON_KEY env);
      ("Authorization", "Bearer " ++ SUPABASE_ANON_KEY env);
      ("Accept", "application/json") ]
    Empty.

Definition handleGetLogs (request : Request) (env : Env) : M Response :=
  let sessionId := searchParams_get (searchParams request) "session" in
  let limit :=
    Math_min
      (num_or (parseInt (ToString_nullable (searchParams_get (searchParams request) "limit"))) 100)
      500 in
  let query :=
    SUPABASE_URL env ++ "/rest/v1/console_logs?select=*&order=created_at.desc&limit="
      ++ show host limit in
  let query :=
    if truthy (nullable sessionId) then
      query ++ "&session_id=eq." ++ encodeURIComponent (ToString_nullable sessionId)
    else query in
  response <- Platform.fetch host (read_call env query) ;;
  if negb (ok response) then
    throw (Error ("Supabase error: " ++ show host (answer_status response)))
  else
    logs <- lift (answer_json response) ;;
    ret (jsonResponse logs 200).

Definition handlePostLog (request : Request) (env : Env) : M Response :=
  body <- lift (json request) ;;
  level <- lift (get body "level") ;;
  if negb (truthy level) then
    ret (jsonResponse (VObj [("error", VStr "Missing required fields")]) 400)
  else
  message <- lift (get body "message") ;;
  if negb (truthy message) then
    ret (jsonResponse (VObj [("error", VStr "Missing required fields")]) 400)
  else
  payload <- Shared.payload_of host body (headers request) ;;
  response <- fetch host (Shared.insert_call env "return=representation" payload) ;;
  if negb (ok response) then
    let errorText := answer_text response in
    throw (Error ("Supabase insert error: " ++ show host (answer_status response)
                  ++ " " ++ errorText))
  else
    result <- lift (answer_json response) ;;
    first <- lift (index0 result) ;;
    ret (jsonResponse (VObj [("success", VBool true); ("data", first)]) 201).

Definition handlePostBatch (request : Request) (env : Env) : M Response :=
  body <- lift (json request) ;;
  logs_field <- lift (get body "logs") ;;
  if negb (truthy logs_field) || negb (Array_isArray logs_field) then
    ret (jsonResponse (VObj [("error", VStr "Invalid logs array")]) 400)
  else
    let logs := slice0 100 (elements logs_field) in
    results <- Promise_allSettled_map
                 (fun log => Shared.insertSingleLog host env log (headers request)) logs ;;
    let successful := List.length (filter fulfilled results) in
    let failed := List.length (filter rejected results) in
    ret (jsonResponse
           (VObj [ ("success", VBool true);
                   ("total", VNum (Number (Z.of_nat (List.length logs))));
                   ("saved", VNum (Number (Z.of_nat successful)));
                   ("failed", VNum (Number (Z.of_nat failed))) ])
           201).

Definition health : M Response :=
  now <- Date_now host ;;
  ret (jsonResponse (VObj [("status", VStr "ok"); ("timestamp", VStr (toISOString now))]) 200).

(** The [catch (error)] block of [fetch]. *)
Definition on_error (error : error) : M Response :=
  console_error error ;;;
  ret (jsonResponse (VObj [("error", VStr (message error))]) 500).

(** The exported [fetch(request, env, ctx)]; [ctx] is not used. *)
Definition fetch (request : Request) (env : Env) : M Response :=
  if String.eqb (method request) "OPTIONS" then
    ret (mkResponse Empty 204 CORS_HEADERS)
  else
    let path := pathname request in
    try_catch
      (if String.eqb path "/health" then
         health
       else if String.eqb (method request) "GET" && String.eqb path "/logs" then
         handleGetLogs request env
       else if String.eqb (method request) "POST" && String.eqb path "/logs" then
         handlePostLog request env
       else if String.eqb (method request) "POST" && String.eqb path "/logs/batch" then
         handlePostBatch request env
       else
         ret (mkResponse (Plain "Not Found") 404 CORS_HEADERS))
      on_error.

End WithHost.

End Worker.

(* ====================================================================== *)
(** ** The Worker of [src/unnamed/part_000] *)
(* ====================================================================== *)

Module Part000.

Definition CORS_HEADERS : list (string * string) :=
  [ ("Access-Control-Allow-Origin", "*");
    ("Access-Control-Allow-Methods", "GET, POST, OPTIONS");
    ("Access-Control-Allow-Headers", "Content-Type, Authorization") ].

(** [jsonResponse(data, status = 200)] *)
Definition jsonResponse (data : value) (status : Z) : Response :=
  mkResponse (JSON_stringify data) status
    (("Content-Type", "application/json") :: CORS_HEADERS).

Section WithHost.

Variable host : Host.

Definition read_call (env : Env) (query : string) : Call :=
  mkCall query "GET"
    [ ("apikey", SUPABASE_ANON_KEY env);
      ("Authorization", "Bearer " ++ SUPABASE_ANON_KEY env);
      ("Accept", "application/json") ]
    Empty.

Definition handleGetLogs (request : Request) (env : Env) : M Response :=
  let sessionId := searchParams_get (searchParams request) "session" in
  let limit :=
    Math_min
      (num_or (parseInt (ToString_nullable (searchParams_get (searchParams request) "limit"))) 100)
      500 in
  let offset :=
    num_or (parseInt (ToString_nullable (searchParams_get (searchParams request) "offset"))) 0 in
  let query :=
    SUPABASE_URL env ++ "/rest/v1/console_logs?select=*&order=created_at.desc&limit="
      ++ show host limit ++ "&offset=" ++ show host offset in
  let query :=
    if truthy (nullable sessionId) then
      query ++ "&session_id=eq." ++ encodeURIComponent (ToString_nullable sessionId)
    else query in
  response <- Platform.fetch host (read_call env query) ;;
  if negb (ok response) then
    throw (Error ("Supabase error: " ++ show host (answer_status response)
                  ++ " " ++ answer_text response))
  else
    logs <- lift (answer_json response) ;;
    ret (jsonResponse logs 200).

Definition handlePostLog (request : Request) (env : Env) : M Response :=
  body <- lift (json request) ;;
  level <- lift (get body "level") ;;
  if negb (truthy level) then
    ret (jsonResponse (VObj [("error", VStr "Missing required fields: level, message")]) 400)
  else
  message <- lift (get body "message") ;;
  if negb (truthy message) then
    ret (jsonResponse (VObj [("error", VStr "Missing required fields: level, message")]) 400)
  else
  payload <- Shared.payload_of host body (headers request) ;;
  response <- fetch host (Shared.insert_call env "return=representation" payload) ;;
  if negb (ok response) then
    let errorText := answer_text response in
    throw (Error ("Supabase insert error: " ++ show host (answer_status response)
                  ++ " " ++ errorText))
  else
    result <- lift (answer_json response) ;;
    first <- lift (index0 result) ;;
    ret (jsonResponse (VObj [("success", VBool true); ("data", first)]) 201).

Definition handlePostBatch (request : Request) (env : Env) : M Response :=
  body <- lift (json request) ;;
  logs_field <- lift (get body "logs") ;;
  if negb (truthy logs_field) || negb (Array_isArray logs_field)
       || (List.length (elements logs_field) =? 0)%nat then
    ret (jsonResponse (VObj [("error", VStr "Missing or invalid logs array")]) 400)
  else
    let logs := slice0 100 (elements logs_field) in
    results <- Promise_allSettled_map
                 (fun log => Shared.insertSingleLog host env log (headers request)) logs ;;
    let successful := List.length (filter fulfilled results) in
    let failed := List.length (filter rejected results) in
    ret (jsonResponse
           (VObj [ ("success", VBool true);
                   ("total", VNum (Number (Z.of_nat (List.length logs))));
                   ("saved", VNum (Number (Z.of_nat successful)));
                   ("failed", VNum (Number (Z.of_nat failed))) ])
           201).

Definition health : M Response :=
  now <- Date_now host ;;
  ret (jsonResponse (VObj [("status", VStr "ok"); ("timestamp", VStr (toISOString now))]) 200).

(** The [catch (error)] block of [fetch]. *)
Definition on_error (error : error) : M Response :=
  console_error error ;;;
  ret (jsonResponse (VObj [("error", VStr (message error))]) 500).

(** The exported [fetch(request, env, ctx)]; [ctx] is not used. *)
Definition fetch (request : Request) (env : Env) : M Response :=
  if String.eqb (method request) "OPTIONS" then
    ret (mkResponse Empty 200 CORS_HEADERS)
  else
    let path := pathname request in
    try_catch
      (if String.eqb (method request) "GET" && String.eqb path "/logs" then
         handleGetLogs request env
       else if String.eqb (method request) "POST" && String.eqb path "/logs" then
         handlePostLog request env
       else if String.eqb (method request) "POST" && String.eqb path "/logs/batch" then
         handlePostBatch request env
       else if String.eqb (method request) "GET" && String.eqb path "/health" then
         health
       else
         ret (mkResponse (Plain "Not Found") 404 CORS_HEADERS))
      on_error.

End WithHost.

End Part000.

(* ====================================================================== *)
(** ** Running an invocation, and the words of the specification *)
(* ====================================================================== *)

(** One invocation, from a fresh world. *)
Definition run {A : Type} (m : M A) : result A * World := m start.

Module Spec.

(** [s] includes [sub]. *)
Definition includes (s sub : string) : Prop :=
  exists pre post, s = pre ++ sub ++ post.

(** The three cross-origin headers both files send. *)
Definition cross_origin (r : Response) : Prop :=
  assoc "Access-Control-Allow-Origin" (response_headers r) = Some "*"
  /\ assoc "Access-Control-Allow-Methods" (response_headers r) = Some "GET, POST, OPTIONS"
  /\ assoc "Access-Control-Allow-Headers" (response_headers r)
     = Some "Content-Type, Authorization".

(** The specification's header set: the three above and a preflight cache
    lifetime. *)
Definition cross_origin_with_lifetime (r : Response) : Prop :=
  cross_origin r
  /\ exists age, assoc "Access-Control-Max-Age" (response_headers r) = Some age.

(** The four method and path pairs of the specification's routing table. *)
Definition four_pairs : list (string * string) :=
  [("GET", "/health"); ("GET", "/logs"); ("POST", "/logs"); ("POST", "/logs/batch")].

(** The three pairs [src/worker.js] matches on method and path. *)
Definition three_pairs : list (string * string) :=
  [("GET", "/logs"); ("POST", "/logs"); ("POST", "/logs/batch")].

Definition not_found (cors : list (string * string)) : Response :=
  mkResponse (Plain "Not Found") 404 cors.

(** [null] and [undefined]: the values whose properties cannot be read. *)
Definition nullish (v : value) : bool :=
  match v with VUndefined | VNull => true | _ => false end.

(** The property [k] of a body that can be read lacks a usable value: it is
    absent, or present and falsy (the empty string, [null], [0], [false]). *)
Definition lacks (body : value) (k : string) : Prop :=
  exists v, get body k = Ok v /\ truthy v = false.

(** The property [k] of the body is present and truthy. *)
Definition has (body : value) (k : string) : Prop :=
  exists v, get body k = Ok v /\ truthy v = true.

(** The body of a JSON error answer. *)
Definition error_body (msg : string) : Body :=
  JSON_stringify (VObj [("error", VStr msg)]).

(** [log.k] of an entry whose properties can be read. *)
Definition prop (log : value) (k : string) : value :=
  match get log k with Ok v => v | Throw _ => VUndefined end.

(** The payload literal, once its ten properties are read at time [now]. *)
Definition payload_at (log : value) (hs : Headers) (now : Z) : value :=
  VObj
    [ ("session_id", or_else (prop log "session_id") (VStr "unknown"));
      ("level", prop log "level");
      ("category", or_else (prop log "category") (VStr "system"));
      ("message", prop log "message");
      ("source", or_else (prop log "source") (VStr "Unknown"));
      ("meta", or_else (prop log "meta") (VObj []));
      ("stack_trace", prop log "stack_trace");
      ("user_agent", or_else (prop log "user_agent") (nullable (Headers_get hs "User-Agent")));
      ("url", or_else (prop log "url") (nullable (Headers_get hs "Referer")));
      ("expires_at", VStr (toISOString (now + 2592000000))) ].

(** The outbound calls of a batch, as a function of its entries: an entry
    whose properties can be read yields one insert call, built from that
    entry and from the next reading of the clock ([k] counts the readings
    so far); [null] yields none. *)
Fixpoint batch_calls (env : Env) (hs : Headers) (clock : nat -> Z) (k : nat)
    (logs : list value) : list Call :=
  match logs with
  | [] => []
  | log :: rest =>
      if nullish log then batch_calls env hs clock k rest
      else
        Shared.insert_call env "return=minimal" (payload_at log hs (clock k))
          :: batch_calls env hs clock (S k) rest
  end.

(** The [i]-th outbound call, [c], is answered with a status in 200..299. *)
Definition accepts (host : Host) (i : nat) (c : Call) : bool :=
  match backend host i c with Ok a => ok a | Throw _ => false end.

(** How many of the calls [cs], issued from position [i] on, are accepted. *)
Fixpoint accepted (host : Host) (i : nat) (cs : list Call) : nat :=
  match cs with
  | [] => 0%nat
  | c :: rest => ((if accepts host i c then 1 else 0) + accepted host (S i) rest)%nat
  end.

(** The report of a batch. *)
Definition batch_report (total saved failed : nat) : value :=
  VObj [ ("success", VBool true);
         ("total", VNum (Number (Z.of_nat total)));
         ("saved", VNum (Number (Z.of_nat saved)));
         ("failed", VNum (Number (Z.of_nat failed))) ].

(** The property [k] of the payload an outbound call carries. *)
Definition sent_prop (k : string) (c : Call) : value :=
  match call_body c with
  | JSON_stringify (VObj props) => lookup k props
  | _ => VUndefined
  end.

(** Two entries a client could send that differ at most in the value, or
    the presence, of their own [expires_at]. *)
Definition same_but_expires_at (a b : value) : Prop :=
  a = b
  \/ (nullish a = false /\ nullish b = false
      /\ forall k, k <> "expires_at" -> prop a k = prop b k).

(** [sub] occurs in [s]. *)
Fixpoint contains (sub s : string) : bool :=
  String.prefix sub s
  || match s with
     | EmptyString => false
     | String _ rest => contains sub rest
     end.

(** A numeric query parameter: its parsed value, or the default [d] when
    the parameter is absent, does not parse, or parses to 0. *)
Definition number_or (param : option string) (d : Z) : Z :=
  match param with
  | None => d
  | Some s =>
      match parseInt s with
      | None => d
      | Some z => if z =? 0 then d else z
      end
  end.

(** The session filter of the reader's query: present when [session] is
    supplied and not empty. *)
Definition session_filter (request : Request) : string :=
  match searchParams_get (searchParams request) "session" with
  | Some s =>
      if String.eqb s "" then "" else "&session_id=eq." ++ encodeURIComponent s
  | None => ""
  end.

(** The reader's query up to the value of [limit]. *)
Definition reader_query (env : Env) : string :=
  SUPABASE_URL env ++ "/rest/v1/console_logs?select=*&order=created_at.desc&limit=".

(** The reader's query as the specification words it: all fields, newest
    first, the limit, the offset, and the session filter whenever a session
    is supplied, its value percent-encoded. *)
Definition query_as_specified (url : string) (limit offset : Z) (session : option string)
  : Prop :=
  contains "select=*" url = true
  /\ contains "order=created_at.desc" url = true
  /\ contains ("limit=" ++ decimal limit) url = true
  /\ contains ("offset=" ++ decimal offset) url = true
  /\ match session with
     | Some s => contains ("session_id=eq." ++ encodeURIComponent s) url = true
     | None => True
     end.

(** Thirty days, in milliseconds. *)
Definition thirty_days : Z := 30 * 24 * 60 * 60 * 1000.

(** The same request with another parsed body. *)
Definition with_body (request : Request) (body : value) : Request :=
  mkRequest (method request) (pathname request) (searchParams request)
    (headers request) (Ok body).

(** The header set of a response is the table [cors], alone or behind the
    JSON content type. *)
Definition sends (cors : list (string * string)) (r : Response) : Prop :=
  response_headers r = cors
  \/ response_headers r = ("Content-Type", "application/json") :: cors.

(** What a computation answers, when it answers. *)
Definition answers (P : Response -> Prop) (m : M Response) : Prop :=
  forall w, match fst (m w) with Ok r => P r | Throw _ => True end.

(** What a computation that cannot throw answers. *)
Definition always (P : Response -> Prop) (m : M Response) : Prop :=
  forall w, exists r w', m w = (Ok r, w') /\ P r.

End Spec.

(** Fixtures: a deployment, a backend that accepts every insert, one that
    refuses every call, and a clock that starts on 2023-11-14. *)
Module Fixtures.

Definition env0 : Env := mkEnv "https://db.example" "anon-key".

Definition created : Answer :=
  mkAnswer 201 "" (Ok (VArr [VObj [("id", VNum (Number 1))]])).

Definition unavailable : Answer :=
  mkAnswer 503 "unavailable" (Throw (mkError "SyntaxError" "Unexpected token u")).

Definition clock0 (k : nat) : Z := 1700000000000 + Z.of_nat k.

Definition accepting : Host := mkHost clock0 (fun _ _ => Ok created) (fun _ => "inexact").

Definition refusing : Host := mkHost clock0 (fun _ _ => Ok unavailable) (fun _ => "inexact").

Definition browser : Headers := [("user-agent", "Mozilla/5.0"); ("referer", "https://fantrove.pages.dev/")].

Definition request0 (m p : string) (q : list (string * string)) (b : value) : Request :=
  mkRequest m p q browser (Ok b).

(** Three entries for the fixtures: the second is [null]. *)
Definition three_entries : list value :=
  [ VObj [("level", VStr "info"); ("message", VStr "one")];
    VNull;
    VObj [("level", VStr "warn"); ("message", VStr "three")] ].

(** Three entries a single write would refuse: no [level], both fields
    empty, no [message]. *)
Definition unlabelled_entries : list value :=
  [ VObj [("message", VStr "no level")];
    VObj [("level", VStr ""); ("message", VStr "")];
    VObj [("level", VStr "info")] ].

(** An accepted entry, and the same entry with an [expires_at] of the
    client's own. *)
Definition plain : value := VObj [("level", VStr "info"); ("message", VStr "hi")].

Definition stamped : value :=
  VObj [("level", VStr "info"); ("message", VStr "hi");
        ("expires_at", VStr "2999-01-01T00:00:00.000Z")].

Definition batch_of (entries : list value) : Request :=
  request0 "POST" "/logs/batch" [] (VObj [("logs", VArr entries)]).

End Fixtures.

Import Fixtures.

(* ====================================================================== *)
(** ** Further notions: what an invocation does to the outside *)
(* ====================================================================== *)

Module Effects.

Import Spec.

(** The statuses the Workers answer with. *)
Definition statuses : list Z := [200; 201; 204; 400; 404; 500].

(** The collection every outbound call addresses. *)
Definition collection (env : Env) : string :=
  SUPABASE_URL env ++ "/rest/v1/console_logs".

(** An outbound call of method [m] addressed to the collection of the
    deployment and authenticated with its key. *)
Definition targets (env : Env) (m : string) (c : Call) : Prop :=
  call_method c = m
  /\ String.prefix (collection env) (call_url c) = true
  /\ assoc "apikey" (call_headers c) = Some (SUPABASE_ANON_KEY env)
  /\ assoc "Authorization" (call_headers c) = Some ("Bearer " ++ SUPABASE_ANON_KEY env).

(** How many entries of a batch cannot be read ([null]). *)
Fixpoint unreadable (logs : list value) : nat :=
  match logs with
  | [] => 0%nat
  | log :: rest => ((if nullish log then 1 else 0) + unreadable rest)%nat
  end.

(** Every character of [s] satisfies [p]. *)
Fixpoint all_chars (p : ascii -> bool) (s : string) : bool :=
  match s with
  | EmptyString => true
  | String c rest => p c && all_chars p rest
  end.

(** The characters [encodeURIComponent] can produce: the unreserved ones
    and the percent sign. *)
Definition encoded_char (c : ascii) : bool := unreserved c || Ascii.eqb c "%".

(** The value of a hexadecimal digit. *)
Definition unhex (c : ascii) : nat :=
  let n := nat_of_ascii c in
  if (n <? 58)%nat then (n - 48)%nat else (n - 55)%nat.

(** Reading percent escapes back: [%XY] is the byte of value 16 X + Y. *)
Fixpoint percent_decode (s : string) : string :=
  match s with
  | String "%" (String x (String y rest)) =>
      String (ascii_of_nat (16 * unhex x + unhex y)) (percent_decode rest)
  | String c rest => String c (percent_decode rest)
  | EmptyString => EmptyString
  end.

(** The nine properties of an entry the payload literal reads. *)
Definition read_keys : list string :=
  [ "session_id"; "level"; "category"; "message"; "source"; "meta";
    "stack_trace"; "user_agent"; "url" ].

(** The ten properties of the payload, in the order of the literal. *)
Definition payload_keys : list string := (read_keys ++ ["expires_at"])%list.

(** Two readable entries with the same nine properties. *)
Definition same_read_properties (a b : value) : Prop :=
  nullish a = false /\ nullish b = false
  /\ forall k, In k read_keys -> prop a k = prop b k.

(** What a handler does to a world: it appends at most [limit] calls, all
    of method [m] and addressed to the collection, writes nothing to the
    console, and answers, when it answers, with a status of [allowed]. *)
Definition keeps (env : Env) (m : string) (limit : nat) (allowed : list Z)
    (h : M Response) : Prop :=
  forall w, exists new,
    calls (snd (h w)) = (calls w ++ new)%list
    /\ console (snd (h w)) = console w
    /\ (List.length new <= limit)%nat
    /\ Forall (targets env m) new
    /\ match fst (h w) with
       | Ok r => In (status r) allowed
       | Throw _ => True
       end.

(** What one invocation amounts to: an answer with one of the six
    statuses; at most [limit] outbound calls, each of the inbound method
    and addressed to the collection; and a console that holds one error
    exactly when the answer is the guard's 500 for that error. *)
Definition summary (env : Env) (request : Request) (limit : nat)
    (outcome : result Response * World) : Prop :=
  exists r,
    fst outcome = Ok r
    /\ In (status r) statuses
    /\ (List.length (calls (snd outcome)) <= limit)%nat
    /\ Forall (targets env (method request)) (calls (snd outcome))
    /\ ((status r <> 500 /\ console (snd outcome) = [])
        \/ (status r = 500
            /\ exists e, console (snd outcome) = [e]
                         /\ body r = error_body (message e))).

(** The bound on the outbound calls of a request: 100 for the batch path,
    one for every other. *)
Definition call_limit (request : Request) : nat :=
  if String.eqb (pathname request) "/logs/batch" then 100%nat else 1%nat.

(** The content type a response carries matches its body: JSON text is
    declared as [application/json], plain text as
    [text/plain;charset=UTF-8], and a response without a body carries no
    content type. *)
Definition declares_its_body (r : Response) : Prop :=
  Headers_get (sent_headers r) "Content-Type"
  = match body r with
    | JSON_stringify _ => Some "application/json"
    | Plain _ => Some "text/plain;charset=UTF-8"
    | Empty => None
    end.

(** The insert call of the entry [log], built at the [k]-th reading of the
    clock. *)
Definition entry_call (host : Host) (env : Env) (hs : Headers) (log : value) (k : nat) : Call :=
  Shared.insert_call env "return=minimal" (payload_at log hs (clock host k)).

(** The health report. *)
Definition health_report (now : Z) : value :=
  VObj [("status", VStr "ok"); ("timestamp", VStr (toISOString now))].

(** Fixtures: a backend that cannot be reached, a request whose body is
    not JSON, and an entry with properties the payload does not read. *)
Definition unreachable : error := TypeError "fetch failed".

Definition offline : Host := mkHost clock0 (fun _ _ => Throw unreachable) (fun _ => "inexact").

Definition not_json : error := mkError "SyntaxError" "Unexpected token h in JSON at position 0".

Definition garbled (m p : string) : Request := mkRequest m p [] browser (Throw not_json).

Definition decorated : value :=
  VObj [("id", VNum (Number 7)); ("level", VStr "info"); ("message", VStr "hi");
        ("created_at", VStr "1999-01-01T00:00:00.000Z")].

End Effects.

Import Effects.

(* ====================================================================== *)
(** ** Proof tools *)
(* ====================================================================== *)

(** Unfolds the monad and splits on whatever the computation inspects next. *)
Ltac unmonad :=
  cbv beta iota delta
    [run bind lift ret throw try_catch console_error Date_now Platform.fetch
     Promise_allSettled_map fst snd] in *.

Ltac split_next :=
  match goal with
  | |- context [match ?x with _ => _ end] =>
      match x with
      | context [match _ with _ => _ end] => fail 1
      | _ => destruct x eqn:?; cbv beta iota delta [fst snd] in *
      end
  end.

Import Spec.

(* ---------------------------------------------------------------------- *)
(** *** The built-ins at known values *)

Example parseInt_known :
  parseInt "  42abc" = Some 42 /\ parseInt "0x1F" = Some 31 /\ parseInt "-7" = Some (-7)
  /\ parseInt "+12.5" = Some 12 /\ parseInt "abc" = None /\ parseInt "" = None
  /\ parseInt "0x" = None /\ parseInt "-0" = Some 0.
Proof. repeat split. Qed.

Example encodeURIComponent_known :
  encodeURIComponent "a b&c=d/e?~'()" = "a%20b%26c%3Dd%2Fe%3F~'()".
Proof. reflexivity. Qed.

Example toISOString_known :
  toISOString 0 = "1970-01-01T00:00:00.000Z"
  /\ toISOString 1700000000000 = "2023-11-14T22:13:20.000Z"
  /\ toISOString 951782400000 = "2000-02-29T00:00:00.000Z"
  /\ toISOString (-1) = "1969-12-31T23:59:59.999Z".
Proof. repeat split. Qed.

Example Number_toString_known :
  Number_toString (fun _ => "9007199254740992") 500 = "500"
  /\ Number_toString (fun _ => "9007199254740992") (-5) = "-5"
  /\ Number_toString (fun _ => "9007199254740992") (2 ^ 53 + 1) = "9007199254740992".
Proof. repeat split. Qed.

Example index0_known :
  index0 (VArr []) = Ok VUndefined
  /\ index0 (VStr "") = Ok VUndefined
  /\ index0 (VStr "abc") = Ok (VStr "a")
  /\ index0 (VStr "été") = Ok (VStr "é")
  /\ index0 (VStr (String "240" (String "159" (String "152" (String "128" "!")))))
     = Ok (VStr (String "237" (String "160" (String "189" "")))).
Proof. repeat split; vm_compute; reflexivity. Qed.

Example sent_headers_known :
  Headers_get (sent_headers (mkResponse (Plain "Not Found") 404 Worker.CORS_HEADERS))
    "Content-Type" = Some "text/plain;charset=UTF-8"
  /\ Headers_get (sent_headers (mkResponse (Plain "Not Found") 404 Worker.CORS_HEADERS))
       "Access-Control-Allow-Origin" = Some "*"
  /\ Headers_get (sent_headers (Worker.jsonResponse VNull 200)) "content-type"
     = Some "application/json"
  /\ Headers_get (sent_headers (mkResponse Empty 204 Worker.CORS_HEADERS)) "Content-Type"
     = None.
Proof. repeat split. Qed.

(* ---------------------------------------------------------------------- *)
(** *** Cross-origin headers *)

Lemma jsonResponse_sends_Worker data status :
  sends Worker.CORS_HEADERS (Worker.jsonResponse data status).
Proof. now right. Qed.

Lemma jsonResponse_sends_Part000 data status :
  sends Part000.CORS_HEADERS (Part000.jsonResponse data status).
Proof. now right. Qed.

Lemma table_sends body status cors : sends cors (mkResponse body status cors).
Proof. now left. Qed.

Create HintDb cors.

#[local] Hint Resolve jsonResponse_sends_Worker jsonResponse_sends_Part000 table_sends : cors.

Ltac answers_by_cases :=
  intros w; unmonad;
  repeat split_next;
  auto with cors.

Section Headers.

Variables (host : Host) (request : Request) (env : Env).

Lemma Worker_handleGetLogs_answers :
  answers (sends Worker.CORS_HEADERS) (Worker.handleGetLogs host request env).
Proof. unfold Worker.handleGetLogs. answers_by_cases. Qed.

Lemma Worker_handlePostLog_answers :
  answers (sends Worker.CORS_HEADERS) (Worker.handlePostLog host request env).
Proof. unfold Worker.handlePostLog, Shared.payload_of. answers_by_cases. Qed.

Lemma Worker_handlePostBatch_answers :
  answers (sends Worker.CORS_HEADERS) (Worker.handlePostBatch host request env).
Proof. unfold Worker.handlePostBatch. answers_by_cases. Qed.

Lemma Part000_handleGetLogs_answers :
  answers (sends Part000.CORS_HEADERS) (Part000.handleGetLogs host request env).
Proof. unfold Part000.handleGetLogs. answers_by_cases. Qed.

Lemma Part000_handlePostLog_answers :
  answers (sends Part000.CORS_HEADERS) (Part000.handlePostLog host request env).
Proof. unfold Part000.handlePostLog, Shared.payload_of. answers_by_cases. Qed.

Lemma Part000_handlePostBatch_answers :
  answers (sends Part000.CORS_HEADERS) (Part000.handlePostBatch host request env).
Proof. unfold Part000.handlePostBatch. answers_by_cases. Qed.

(** A guarded handler cannot throw: what it throws, the catch answers. *)
Lemma caught_always (P : Response -> Prop) (m : M Response) (handler : error -> M Response) :
  answers P m ->
  (forall e, always P (handler e)) ->
  always P (try_catch m handler).
Proof.
  intros Hm Hh w. unfold try_catch. specialize (Hm w).
  destruct (m w) as [[r | e] w']; simpl in Hm.
  - now exists r, w'.
  - apply Hh.
Qed.

Lemma Worker_fetch_always :
  always (sends Worker.CORS_HEADERS) (Worker.fetch host request env).
Proof.
  unfold Worker.fetch.
  destruct (String.eqb (method request) "OPTIONS").
  - intros w. eexists _, _. split; [reflexivity | auto with cors].
  - apply caught_always.
    + repeat match goal with
             | |- answers _ (if ?c then _ else _) => destruct c
             end;
        auto using Worker_handleGetLogs_answers, Worker_handlePostLog_answers,
                   Worker_handlePostBatch_answers.
      * intros w. unfold Worker.health. unmonad. auto with cors.
      * intros w. unmonad. auto with cors.
    + intros e w. unfold Worker.on_error, Part000.on_error. unmonad.
      eexists _, _. split; [reflexivity | auto with cors].
Qed.

Lemma Part000_fetch_always :
  always (sends Part000.CORS_HEADERS) (Part000.fetch host request env).
Proof.
  unfold Part000.fetch.
  destruct (String.eqb (method request) "OPTIONS").
  - intros w. eexists _, _. split; [reflexivity | auto with cors].
  - apply caught_always.
    + repeat match goal with
             | |- answers _ (if ?c then _ else _) => destruct c
             end;
        auto using Part000_handleGetLogs_answers, Part000_handlePostLog_answers,
                   Part000_handlePostBatch_answers.
      * intros w. unfold Part000.health. unmonad. auto with cors.
      * intros w. unmonad. auto with cors.
    + intros e w. unfold Worker.on_error, Part000.on_error. unmonad.
      eexists _, _. split; [reflexivity | auto with cors].
Qed.

End Headers.

Lemma sends_Worker_lifetime r :
  sends Worker.CORS_HEADERS r -> cross_origin_with_lifetime r.
Proof.
  intros [H | H]; unfold cross_origin_with_lifetime, cross_origin; rewrite H;
    repeat split; now exists "86400".
Qed.

Lemma sends_Part000_no_lifetime r :
  sends Part000.CORS_HEADERS r ->
  cross_origin r /\ assoc "Access-Control-Max-Age" (response_headers r) = None.
Proof.
  intros [H | H]; unfold cross_origin; rewrite H; repeat split.
Qed.

(** C7, as the specification words it, fails on [src/unnamed/part_000]: its
    preflight answer carries no [Access-Control-Max-Age]. *)
Lemma C7_part000_has_no_preflight_lifetime :
  exists r w,
    run (Part000.fetch accepting (request0 "OPTIONS" "/logs" [] VNull) env0) = (Ok r, w)
    /\ ~ cross_origin_with_lifetime r.
Proof.
  eexists _, _. split; [reflexivity |].
  intros [_ [age H]]. discriminate H.
Qed.

(** C7 (amended).  Every invocation of either Worker ends with a response,
    whatever the request, the deployment and the host do, and that response
    carries the file's own fixed cross-origin table: wildcard origin, the
    methods [GET, POST, OPTIONS] and the headers [Content-Type,
    Authorization] in both files; [Access-Control-Max-Age: 86400] in
    [src/worker.js] and no preflight lifetime in [src/unnamed/part_000]. *)
Theorem C7_cross_origin_headers_on_every_response :
  forall (host : Host) (request : Request) (env : Env),
    (exists r w,
        run (Worker.fetch host request env) = (Ok r, w)
        /\ sends Worker.CORS_HEADERS r
        /\ cross_origin r
        /\ assoc "Access-Control-Max-Age" (response_headers r) = Some "86400")
    /\ (exists r w,
        run (Part000.fetch host request env) = (Ok r, w)
        /\ sends Part000.CORS_HEADERS r
        /\ cross_origin r
        /\ assoc "Access-Control-Max-Age" (response_headers r) = None).
Proof.
  intros host request env. split.
  - destruct (Worker_fetch_always host request env start) as (r & w & E & S).
    exists r, w. split; [exact E |]. split; [exact S |]. split.
    + now apply sends_Worker_lifetime.
    + destruct S as [H | H]; rewrite H; reflexivity.
  - destruct (Part000_fetch_always host request env start) as (r & w & E & S).
    exists r, w. split; [exact E |]. split; [exact S |].
    now apply sends_Part000_no_lifetime.
Qed.

(* ---------------------------------------------------------------------- *)
(** *** Routing *)

Section Routes.

Variables (host : Host) (request : Request) (env : Env).

Lemma Worker_reader_route :
  method request = "GET" -> pathname request = "/logs" ->
  Worker.fetch host request env
  = try_catch (Worker.handleGetLogs host request env) Worker.on_error.
Proof. intros Hm Hp. unfold Worker.fetch. now rewrite Hm, Hp. Qed.

Lemma Part000_reader_route :
  method request = "GET" -> pathname request = "/logs" ->
  Part000.fetch host request env
  = try_catch (Part000.handleGetLogs host request env) Part000.on_error.
Proof. intros Hm Hp. unfold Part000.fetch. now rewrite Hm, Hp. Qed.

Lemma Worker_single_route :
  method request = "POST" -> pathname request = "/logs" ->
  Worker.fetch host request env
  = try_catch (Worker.handlePostLog host request env) Worker.on_error.
Proof. intros Hm Hp. unfold Worker.fetch. now rewrite Hm, Hp. Qed.

Lemma Part000_single_route :
  method request = "POST" -> pathname request = "/logs" ->
  Part000.fetch host request env
  = try_catch (Part000.handlePostLog host request env) Part000.on_error.
Proof. intros Hm Hp. unfold Part000.fetch. now rewrite Hm, Hp. Qed.

Lemma Worker_batch_route :
  method request = "POST" -> pathname request = "/logs/batch" ->
  Worker.fetch host request env
  = try_catch (Worker.handlePostBatch host request env) Worker.on_error.
Proof. intros Hm Hp. unfold Worker.fetch. now rewrite Hm, Hp. Qed.

Lemma Part000_batch_route :
  method request = "POST" -> pathname request = "/logs/batch" ->
  Part000.fetch host request env
  = try_catch (Part000.handlePostBatch host request env) Part000.on_error.
Proof. intros Hm Hp. unfold Part000.fetch. now rewrite Hm, Hp. Qed.

End Routes.

Ltac decide_routes :=
  repeat match goal with
         | |- context [String.eqb ?a ?b] => destruct (String.eqb_spec a b)
         end;
  cbn [andb]; try reflexivity; try congruence.

(** C6, as the specification words it, fails on [src/worker.js]: [/health]
    is matched on the path alone, so [POST /health], which is none of the
    four pairs, is answered by the health check and not by the 404. *)
Lemma C6_worker_health_ignores_the_method :
  let request := request0 "POST" "/health" [] VNull in
  method request <> "OPTIONS"
  /\ ~ In (method request, pathname request) four_pairs
  /\ exists r w,
       run (Worker.fetch accepting request env0) = (Ok r, w)
       /\ status r = 200
       /\ r <> not_found Worker.CORS_HEADERS.
Proof.
  cbv zeta. split; [discriminate |]. split.
  - simpl. intros [H | [H | [H | [H | []]]]]; discriminate H.
  - eexists _, _. split; [vm_compute; reflexivity |].
    split; [reflexivity | discriminate].
Qed.

(** C6 (amended).  A request whose method is not [OPTIONS] is dispatched
    by exact comparison of method and path.  [src/unnamed/part_000] matches
    the four pairs [GET /health], [GET /logs], [POST /logs] and
    [POST /logs/batch]; [src/worker.js] matches the last three and answers
    [/health] whatever the method.  Each match runs its handler inside the
    guard of [fetch]; a request that matches nothing is answered, with no
    effect, by the plain text [Not Found], status 404, under the file's
    cross-origin table. *)
Theorem C6_dispatch_by_method_and_path :
  forall (host : Host) (request : Request) (env : Env),
    method request <> "OPTIONS" ->
    let m := method request in
    let p := pathname request in
    ((p = "/health" ->
        Worker.fetch host request env = try_catch (Worker.health host) Worker.on_error)
     /\ (m = "GET" /\ p = "/logs" ->
        Worker.fetch host request env
        = try_catch (Worker.handleGetLogs host request env) Worker.on_error)
     /\ (m = "POST" /\ p = "/logs" ->
        Worker.fetch host request env
        = try_catch (Worker.handlePostLog host request env) Worker.on_error)
     /\ (m = "POST" /\ p = "/logs/batch" ->
        Worker.fetch host request env
        = try_catch (Worker.handlePostBatch host request env) Worker.on_error)
     /\ (p <> "/health" -> ~ In (m, p) three_pairs ->
        run (Worker.fetch host request env) = (Ok (not_found Worker.CORS_HEADERS), start)))
    /\
    ((m = "GET" /\ p = "/health" ->
        Part000.fetch host request env = try_catch (Part000.health host) Part000.on_error)
     /\ (m = "GET" /\ p = "/logs" ->
        Part000.fetch host request env
        = try_catch (Part000.handleGetLogs host request env) Part000.on_error)
     /\ (m = "POST" /\ p = "/logs" ->
        Part000.fetch host request env
        = try_catch (Part000.handlePostLog host request env) Part000.on_error)
     /\ (m = "POST" /\ p = "/logs/batch" ->
        Part000.fetch host request env
        = try_catch (Part000.handlePostBatch host request env) Part000.on_error)
     /\ (~ In (m, p) four_pairs ->
        run (Part000.fetch host request env) = (Ok (not_found Part000.CORS_HEADERS), start))).
Proof.
  intros host request env Hopt m p. subst m p.
  assert (O : String.eqb (method request) "OPTIONS" = false)
    by now apply String.eqb_neq.
  unfold Worker.fetch, Part000.fetch, three_pairs, four_pairs. rewrite O.
  repeat split.
  1-4, 6-9: intros; repeat match goal with H : _ /\ _ |- _ => destruct H end;
    repeat match goal with H : _ = _ |- _ => rewrite H end; reflexivity.
  - intros Hh Hn. simpl in Hn. decide_routes; exfalso; apply Hn; rewrite ?e, ?e0; auto.
  - intros Hn. simpl in Hn. decide_routes; exfalso; apply Hn; rewrite ?e, ?e0; auto.
Qed.

(** C6 at [DELETE /logs]: both Workers answer 404. *)
Lemma C6_dispatch_witness :
  run (Worker.fetch accepting (request0 "DELETE" "/logs" [] VNull) env0)
    = (Ok (not_found Worker.CORS_HEADERS), start)
  /\ run (Part000.fetch accepting (request0 "DELETE" "/logs" [] VNull) env0)
    = (Ok (not_found Part000.CORS_HEADERS), start).
Proof.
  assert (O : method (request0 "DELETE" "/logs" [] VNull) <> "OPTIONS") by discriminate.
  destruct (C6_dispatch_by_method_and_path accepting (request0 "DELETE" "/logs" [] VNull) env0 O)
    as [(_ & _ & _ & _ & W) (_ & _ & _ & _ & P)].
  split.
  - apply W; [discriminate |].
    simpl. intros [H | [H | [H | []]]]; discriminate H.
  - apply P. simpl. intros [H | [H | [H | [H | []]]]]; discriminate H.
Defined.

(* ---------------------------------------------------------------------- *)
(** *** Reading properties and building the payload *)

Lemma get_nullish v k x : get v k = Ok x -> nullish v = false.
Proof. destruct v; simpl; congruence. Qed.

Lemma get_prop v k : nullish v = false -> get v k = Ok (prop v k).
Proof. unfold prop. destruct v; simpl; congruence. Qed.

Lemma lacks_nullish body k : lacks body k -> nullish body = false.
Proof. intros (v & G & _). eauto using get_nullish. Qed.

Lemma has_nullish body k : has body k -> nullish body = false.
Proof. intros (v & G & _). eauto using get_nullish. Qed.

Lemma lacks_prop body k : lacks body k -> truthy (prop body k) = false.
Proof. intros (v & G & T). unfold prop. now rewrite G. Qed.

Lemma has_prop body k : has body k -> truthy (prop body k) = true.
Proof. intros (v & G & T). unfold prop. now rewrite G. Qed.

Lemma show_decimal host z : Z.abs z <= 2 ^ 53 -> show host z = decimal z.
Proof.
  intros H. unfold show, Number_toString.
  destruct (Z.leb_spec (Z.abs z) (2 ^ 53)); [reflexivity | lia].
Qed.

Lemma includes_middle pre sub post : includes (pre ++ sub ++ post) sub.
Proof. now exists pre, post. Qed.

Lemma append_empty_r s : s ++ "" = s.
Proof. induction s; simpl; congruence. Qed.

Lemma includes_end pre sub : includes (pre ++ sub) sub.
Proof. exists pre, "". now rewrite append_empty_r. Qed.

(** Thirty days are 2 592 000 000 ms. *)
Lemma retention_ms : Shared.retention = 2592000000.
Proof. reflexivity. Qed.

Section Payload.

Variables (host : Host) (env : Env) (hs : Headers).

Lemma payload_of_readable log w :
  nullish log = false ->
  Shared.payload_of host log hs w
  = (Ok (payload_at log hs (clock host (ticks w))),
     mkWorld (S (ticks w)) (calls w) (console w)).
Proof.
  intros N. unfold Shared.payload_of. unmonad.
  rewrite !(get_prop log _ N). reflexivity.
Qed.

Lemma payload_of_nullish log w :
  nullish log = true ->
  exists e, Shared.payload_of host log hs w = (Throw e, w).
Proof.
  intros N. unfold Shared.payload_of. unmonad.
  destruct log; try discriminate N; simpl; eauto.
Qed.

End Payload.

(* ---------------------------------------------------------------------- *)
(** *** The single writer's validation *)

Lemma lacks_readable body k :
  lacks body k <-> nullish body = false /\ truthy (prop body k) = false.
Proof.
  split.
  - intros L. split; [eauto using lacks_nullish | now apply lacks_prop].
  - intros [N T]. exists (prop body k). split; [now apply get_prop | exact T].
Qed.

(** C4, as the specification words it, fails at the body [null]: it has
    neither [level] nor [message], reading [body.level] throws, and the
    guard of [fetch] answers status 500, not 400, in both files (still
    without an outbound call). *)
Lemma C4_null_body_is_status_500 :
  truthy (prop VNull "level") = false
  /\ truthy (prop VNull "message") = false
  /\ (exists r w,
        run (Worker.fetch accepting (request0 "POST" "/logs" [] VNull) env0) = (Ok r, w)
        /\ status r = 500 /\ status r <> 400 /\ calls w = [])
  /\ (exists r w,
        run (Part000.fetch accepting (request0 "POST" "/logs" [] VNull) env0) = (Ok r, w)
        /\ status r = 500 /\ status r <> 400 /\ calls w = []).
Proof.
  split; [reflexivity |]. split; [reflexivity |].
  split; eexists _, _; (split; [vm_compute; reflexivity |]);
    (split; [reflexivity |]); (split; [discriminate | reflexivity]).
Qed.

(** C4 (amended).  A [POST /logs] whose body is a JSON value other than
    [null] and lacks [level] or [message] (the property is absent, or
    falsy) is answered with status 400 and the JSON body [{error: "Missing
    required fields..."}], and the invocation has issued no outbound call
    (nor read the clock, nor logged anything): it ends in the world it
    started in.  For the body [null], whose properties cannot be read, the
    TypeError of [body.level] is caught by the guard of [fetch]: status
    500, the error's message as [{error}], the error logged, and no
    outbound call either.  Every parsed body is of one kind or the other:
    it lacks a property exactly when it can be read and the value read is
    falsy. *)
Theorem C4_single_write_rejects_missing_fields :
  forall (host : Host) (request : Request) (env : Env) (body : value),
    method request = "POST" ->
    pathname request = "/logs" ->
    json request = Ok body ->
    (lacks body "level" \/ lacks body "message" ->
       (exists r w msg,
           run (Worker.fetch host request env) = (Ok r, w)
           /\ status r = 400
           /\ Platform.body r = error_body msg
           /\ String.prefix "Missing required fields" msg = true
           /\ calls w = [] /\ w = start)
       /\ (exists r w msg,
           run (Part000.fetch host request env) = (Ok r, w)
           /\ status r = 400
           /\ Platform.body r = error_body msg
           /\ String.prefix "Missing required fields" msg = true
           /\ calls w = [] /\ w = start))
    /\ (nullish body = true ->
        exists e,
          get body "level" = Throw e
          /\ run (Worker.fetch host request env)
             = (Ok (Worker.jsonResponse (VObj [("error", VStr (message e))]) 500),
                mkWorld 0 [] [e])
          /\ run (Part000.fetch host request env)
             = (Ok (Part000.jsonResponse (VObj [("error", VStr (message e))]) 500),
                mkWorld 0 [] [e]))
    /\ (forall k, lacks body k <-> nullish body = false /\ truthy (prop body k) = false).
Proof.
  intros host request env body Hm Hp Hj.
  split; [| split; [| intros k; apply lacks_readable]].
  - intros Hl.
    assert (N : nullish body = false) by (destruct Hl; eauto using lacks_nullish).
    unfold run.
    rewrite (Worker_single_route host request env Hm Hp),
      (Part000_single_route host request env Hm Hp).
    unfold Worker.handlePostLog, Part000.handlePostLog. unmonad.
    rewrite Hj, !(get_prop body _ N).
    split.
    + destruct (truthy (prop body "level")) eqn:L; cbn [negb].
      * assert (T : truthy (prop body "message") = false).
        { destruct Hl as [Hl | Hl];
            [apply lacks_prop in Hl; congruence | now apply lacks_prop]. }
        rewrite T. cbn [negb]. eexists _, _, _. repeat split.
      * eexists _, _, _. repeat split.
    + destruct (truthy (prop body "level")) eqn:L; cbn [negb].
      * assert (T : truthy (prop body "message") = false).
        { destruct Hl as [Hl | Hl];
            [apply lacks_prop in Hl; congruence | now apply lacks_prop]. }
        rewrite T. cbn [negb]. eexists _, _, _. repeat split.
      * eexists _, _, _. repeat split.
  - intros N. unfold run.
    rewrite (Worker_single_route host request env Hm Hp),
      (Part000_single_route host request env Hm Hp).
    unfold Worker.handlePostLog, Part000.handlePostLog, Worker.on_error, Part000.on_error.
    unmonad. rewrite Hj.
    destruct body; try discriminate N; cbn [get]; eexists; repeat split.
Qed.

(** C4 at a body with a message and no level, and at the body [null]. *)
Lemma C4_single_write_witness :
  ((exists r w msg,
      run (Worker.fetch accepting
             (request0 "POST" "/logs" [] (VObj [("message", VStr "hi")])) env0) = (Ok r, w)
      /\ status r = 400
      /\ Platform.body r = error_body msg
      /\ String.prefix "Missing required fields" msg = true
      /\ calls w = [] /\ w = start)
   /\ (exists r w msg,
      run (Part000.fetch accepting
             (request0 "POST" "/logs" [] (VObj [("message", VStr "hi")])) env0) = (Ok r, w)
      /\ status r = 400
      /\ Platform.body r = error_body msg
      /\ String.prefix "Missing required fields" msg = true
      /\ calls w = [] /\ w = start))
  /\ (exists e,
        run (Part000.fetch accepting (request0 "POST" "/logs" [] VNull) env0)
        = (Ok (Part000.jsonResponse (VObj [("error", VStr (message e))]) 500),
           mkWorld 0 [] [e])).
Proof.
  split.
  - destruct (C4_single_write_rejects_missing_fields accepting
                (request0 "POST" "/logs" [] (VObj [("message", VStr "hi")])) env0
                (VObj [("message", VStr "hi")]) eq_refl eq_refl eq_refl) as [A _].
    apply A. left. exists VUndefined. split; reflexivity.
  - destruct (C4_single_write_rejects_missing_fields accepting
                (request0 "POST" "/logs" [] VNull) env0 VNull eq_refl eq_refl eq_refl)
      as (_ & B & _).
    destruct (B eq_refl) as (e & _ & _ & P). exists e. exact P.
Defined.

(** A body that is the JSON text [null] has no properties to read: the
    request ends in the guard of [fetch], with status 500. *)
Example null_body_is_an_internal_error :
  exists r w,
    run (Worker.fetch accepting (request0 "POST" "/logs" [] VNull) env0) = (Ok r, w)
    /\ status r = 500.
Proof. eexists _, _. split; [vm_compute; reflexivity | reflexivity]. Qed.

(* ---------------------------------------------------------------------- *)
(** *** A backend that refuses a read or a single write *)

(** C8.  When the backend answers the outbound call of a [GET /logs] or of
    an accepted [POST /logs] with a status outside 200..299, the handler
    throws, the guard of [fetch] catches it, and the caller receives status
    500 with the JSON body [{error: <message>}].  The message includes the
    backend's status as the engine prints it (its decimal digits, for every
    status of magnitude up to 2^53); the status sent to the caller is 500
    whatever the backend's status was. *)
Theorem C8_backend_refusal_is_status_500 :
  forall (host : Host) (request : Request) (env : Env) (a : Answer),
    (forall c, backend host 0%nat c = Ok a) ->
    ok a = false ->
    let refused (outcome : result Response * World) :=
      exists r msg,
        fst outcome = Ok r
        /\ status r = 500
        /\ Platform.body r = error_body msg
        /\ includes msg (show host (answer_status a))
        /\ (Z.abs (answer_status a) <= 2 ^ 53 -> includes msg (decimal (answer_status a)))
        /\ List.length (calls (snd outcome)) = 1%nat in
    (method request = "GET" -> pathname request = "/logs" ->
       refused (run (Worker.fetch host request env))
       /\ refused (run (Part000.fetch host request env)))
    /\ (method request = "POST" -> pathname request = "/logs" ->
        forall body, json request = Ok body -> has body "level" -> has body "message" ->
          refused (run (Worker.fetch host request env))
          /\ refused (run (Part000.fetch host request env))).
Proof.
  intros host request env a Hb Hok refused.
  assert (D : forall pre post,
             Z.abs (answer_status a) <= 2 ^ 53 ->
             includes (pre ++ show host (answer_status a) ++ post) (decimal (answer_status a))).
  { intros pre post H. rewrite (show_decimal host _ H). apply includes_middle. }
  split.
  - intros Hm Hp. subst refused.
    unfold run.
    rewrite (Worker_reader_route host request env Hm Hp),
      (Part000_reader_route host request env Hm Hp).
    unfold Worker.handleGetLogs, Part000.handleGetLogs, Worker.on_error, Part000.on_error.
    unmonad. cbn [calls List.length].
    rewrite !Hb, Hok. cbn [negb message Error].
    split; eexists _, _; (split; [reflexivity |]); repeat split.
    + apply includes_end.
    + intros H. rewrite (show_decimal host _ H). apply includes_end.
    + apply includes_middle.
    + apply D.
  - intros Hm Hp body Hj Hl Hmsg. subst refused.
    assert (N : nullish body = false) by eauto using has_nullish.
    apply has_prop in Hl, Hmsg.
    unfold run.
    rewrite (Worker_single_route host request env Hm Hp),
      (Part000_single_route host request env Hm Hp).
    unfold Worker.handlePostLog, Part000.handlePostLog, Worker.on_error, Part000.on_error.
    unmonad.
    rewrite Hj, !(get_prop body _ N), Hl, Hmsg. cbn [negb].
    rewrite !(payload_of_readable host _ _ _ N). cbn [calls ticks console List.length].
    rewrite !Hb, Hok. cbn [negb message Error calls app List.length].
    split; eexists _, _; (split; [reflexivity |]); repeat split;
      try apply includes_middle; apply D.
Qed.

(** C8 at a backend that answers 503 to everything. *)
Lemma C8_backend_refusal_witness :
  (exists r msg,
      fst (run (Worker.fetch refusing (request0 "GET" "/logs" [] VNull) env0)) = Ok r
      /\ status r = 500
      /\ Platform.body r = error_body msg
      /\ includes msg (decimal 503))
  /\ (exists r msg,
      fst (run (Part000.fetch refusing
                  (request0 "POST" "/logs" []
                     (VObj [("level", VStr "error"); ("message", VStr "boom")])) env0)) = Ok r
      /\ status r = 500
      /\ Platform.body r = error_body msg
      /\ includes msg (decimal 503)).
Proof.
  assert (B : forall c, backend refusing 0%nat c = Ok unavailable) by reflexivity.
  assert (K : ok unavailable = false) by reflexivity.
  assert (Z503 : Z.abs (answer_status unavailable) <= 2 ^ 53) by (vm_compute; discriminate).
  split.
  - destruct (C8_backend_refusal_is_status_500 refusing
                (request0 "GET" "/logs" [] VNull) env0 unavailable B K) as [G _].
    destruct (G eq_refl eq_refl) as [(r & msg & E & S & Bd & _ & I & _) _].
    exists r, msg. auto.
  - destruct (C8_backend_refusal_is_status_500 refusing
                (request0 "POST" "/logs" []
                   (VObj [("level", VStr "error"); ("message", VStr "boom")])) env0
                unavailable B K) as [_ P].
    destruct (P eq_refl eq_refl _ eq_refl) as [_ (r & msg & E & S & Bd & _ & I & _)].
    + exists (VStr "error"). split; reflexivity.
    + exists (VStr "boom"). split; reflexivity.
    + exists r, msg. auto.
Defined.

(* ---------------------------------------------------------------------- *)
(** *** The batch writer *)

Lemma settled_partition {B : Type} (rs : list (result B)) :
  (List.length (filter fulfilled rs) + List.length (filter rejected rs))%nat = List.length rs.
Proof.
  induction rs as [| [b | e] rs IH]; simpl; lia.
Qed.

Section Batch.

Variables (host : Host) (env : Env) (hs : Headers).

Let insert (log : value) : M value := Shared.insertSingleLog host env log hs.

Lemma insertSingleLog_readable log w :
  nullish log = false ->
  let c := Shared.insert_call env "return=minimal" (payload_at log hs (clock host (ticks w))) in
  exists r,
    insert log w = (r, mkWorld (S (ticks w)) (calls w ++ [c])%list (console w))
    /\ fulfilled r = accepts host (List.length (calls w)) c.
Proof.
  intros N c. subst insert. unfold Shared.insertSingleLog, accepts.
  unfold bind at 1. rewrite (payload_of_readable host hs log w N).
  unmonad. cbn [calls ticks console]. fold c.
  destruct (backend host (List.length (calls w)) c) as [a | e].
  - destruct (ok a); cbn [negb]; eexists; split; reflexivity.
  - eexists; split; reflexivity.
Qed.

Lemma insertSingleLog_nullish log w :
  nullish log = true ->
  exists e, insert log w = (Throw e, w).
Proof.
  intros N. subst insert. unfold Shared.insertSingleLog. unfold bind at 1.
  destruct (payload_of_nullish host hs log w N) as [e E]. rewrite E. eauto.
Qed.

(** Settling a batch: one outcome per entry, the calls of [batch_calls]
    appended in order, and as many fulfilled outcomes as accepted calls. *)
Lemma allSettled_insert logs :
  forall w rs w',
    allSettled_map insert logs w = (rs, w') ->
    List.length rs = List.length logs
    /\ calls w' = (calls w ++ batch_calls env hs (clock host) (ticks w) logs)%list
    /\ console w' = console w
    /\ List.length (filter fulfilled rs)
       = accepted host (List.length (calls w)) (batch_calls env hs (clock host) (ticks w) logs).
Proof.
  induction logs as [| log rest IH]; intros w rs w' E; simpl in E.
  - injection E as <- <-. simpl. rewrite app_nil_r. auto.
  - destruct (insert log w) as [r w1] eqn:E1.
    destruct (allSettled_map insert rest w1) as [rs1 w2] eqn:E2.
    injection E as <- <-.
    specialize (IH _ _ _ E2). destruct IH as (L & C & K & F).
    simpl batch_calls. destruct (nullish log) eqn:N.
    + destruct (insertSingleLog_nullish log w N) as [e Ee].
      rewrite Ee in E1. injection E1 as <- <-.
      simpl. auto.
    + destruct (insertSingleLog_readable log w N) as (r' & Er & Fr).
      cbv zeta in Er, Fr. rewrite Er in E1. injection E1 as <- <-.
      cbn [calls ticks console] in *.
      rewrite C, K, <- app_assoc. repeat split; try (simpl; congruence).
      rewrite length_app, Nat.add_1_r in F.
      simpl. rewrite <- F, <- Fr. destruct r'; reflexivity.
Qed.

End Batch.

Section BatchHandlers.

Variables (host : Host) (request : Request) (env : Env) (body : value) (items : list value).

Hypothesis body_parsed : json request = Ok body.
Hypothesis logs_is_array : get body "logs" = Ok (VArr items).

Let total : nat := Nat.min (List.length items) 100.
Let sent (w : World) : list Call :=
  batch_calls env (headers request) (clock host) (ticks w) (firstn 100 items).

Lemma Worker_handlePostBatch_report w :
  exists saved failed w',
    Worker.handlePostBatch host request env w
    = (Ok (Worker.jsonResponse (batch_report total saved failed) 201), w')
    /\ (saved + failed)%nat = total
    /\ calls w' = (calls w ++ sent w)%list
    /\ console w' = console w
    /\ saved = accepted host (List.length (calls w)) (sent w).
Proof.
  unfold Worker.handlePostBatch. unmonad.
  rewrite body_parsed, logs_is_array.
  cbn [truthy Array_isArray negb orb elements]. unfold slice0.
  match goal with
  | |- context [allSettled_map ?f (firstn 100 items) w] =>
      destruct (allSettled_map f (firstn 100 items) w) as [rs w'] eqn:E
  end.
  destruct (allSettled_insert host env (headers request) _ _ _ _ E) as (L & C & K & F).
  assert (T : List.length (firstn 100 items) = total)
    by (subst total; rewrite length_firstn; apply Nat.min_comm).
  exists (List.length (filter fulfilled rs)), (List.length (filter rejected rs)), w'.
  rewrite T. repeat split; trivial.
  rewrite settled_partition. congruence.
Qed.

Lemma Part000_handlePostBatch_report w :
  items <> [] ->
  exists saved failed w',
    Part000.handlePostBatch host request env w
    = (Ok (Part000.jsonResponse (batch_report total saved failed) 201), w')
    /\ (saved + failed)%nat = total
    /\ calls w' = (calls w ++ sent w)%list
    /\ console w' = console w
    /\ saved = accepted host (List.length (calls w)) (sent w).
Proof.
  intros NE. unfold Part000.handlePostBatch. unmonad.
  rewrite body_parsed, logs_is_array.
  cbn [truthy Array_isArray negb orb elements]. unfold slice0.
  replace (List.length items =? 0)%nat with false
    by (destruct items; [congruence | reflexivity]).
  match goal with
  | |- context [allSettled_map ?f (firstn 100 items) w] =>
      destruct (allSettled_map f (firstn 100 items) w) as [rs w'] eqn:E
  end.
  destruct (allSettled_insert host env (headers request) _ _ _ _ E) as (L & C & K & F).
  assert (T : List.length (firstn 100 items) = total)
    by (subst total; rewrite length_firstn; apply Nat.min_comm).
  exists (List.length (filter fulfilled rs)), (List.length (filter rejected rs)), w'.
  rewrite T. repeat split; trivial.
  rewrite settled_partition. congruence.
Qed.

End BatchHandlers.

Lemma try_catch_ok {A : Type} (m : M A) (handler : error -> M A) w a w' :
  m w = (Ok a, w') -> try_catch m handler w = (Ok a, w').
Proof. unfold try_catch. now intros ->. Qed.

Lemma firstn_min {A : Type} (l : list A) (n : nat) :
  firstn (Nat.min (List.length l) n) l = firstn n l.
Proof.
  destruct (Nat.le_ge_cases (List.length l) n) as [H | H].
  - rewrite Nat.min_l by exact H. rewrite firstn_all. symmetry. now apply firstn_all2.
  - now rewrite Nat.min_r by exact H.
Qed.

(** C1, as the specification words it, fails on [src/unnamed/part_000] at
    N = 0: an empty array is answered with status 400, not with the report
    [{success, total: 0, saved: 0, failed: 0}] and status 201. *)
Lemma C1_part000_rejects_the_empty_batch :
  exists r w,
    run (Part000.fetch accepting
           (request0 "POST" "/logs/batch" [] (VObj [("logs", VArr [])])) env0) = (Ok r, w)
    /\ status r = 400
    /\ r <> Part000.jsonResponse (batch_report 0 0 0) 201.
Proof.
  eexists _, _. split; [vm_compute; reflexivity |].
  split; [reflexivity | discriminate].
Qed.

(** C1 (amended).  For a batch write whose [logs] is an array of N entries
    (N >= 1 in [src/unnamed/part_000], which refuses the empty array; any N
    in [src/worker.js]), the entries attempted are exactly the first
    min(N, 100): the outbound calls are those of [batch_calls] on that
    prefix, one per entry whose properties can be read, and nothing is
    issued for the entries beyond it.  The answer has status 201 and the
    body [{success: true, total, saved, failed}] with total = min(N, 100)
    and saved + failed = total, whatever the backend did with each call;
    [saved] is the number of calls the backend accepted. *)
Theorem C1_batch_attempts_a_prefix_and_reports :
  forall (host : Host) (request : Request) (env : Env) (body : value) (items : list value),
    method request = "POST" ->
    pathname request = "/logs/batch" ->
    json request = Ok body ->
    get body "logs" = Ok (VArr items) ->
    let total := Nat.min (List.length items) 100 in
    let sent := batch_calls env (headers request) (clock host) 0 (firstn total items) in
    (exists saved failed w,
        run (Worker.fetch host request env)
        = (Ok (Worker.jsonResponse (batch_report total saved failed) 201), w)
        /\ (saved + failed)%nat = total
        /\ calls w = sent
        /\ saved = accepted host 0 sent)
    /\ (items <> [] ->
        exists saved failed w,
          run (Part000.fetch host request env)
          = (Ok (Part000.jsonResponse (batch_report total saved failed) 201), w)
          /\ (saved + failed)%nat = total
          /\ calls w = sent
          /\ saved = accepted host 0 sent).
Proof.
  intros host request env body items Hm Hp Hj Hl total sent.
  subst sent total. rewrite firstn_min. split.
  - destruct (Worker_handlePostBatch_report host request env body items Hj Hl start)
      as (saved & failed & w & E & S & C & _ & A).
    exists saved, failed, w. unfold run.
    rewrite (Worker_batch_route host request env Hm Hp), (try_catch_ok _ _ _ _ _ E).
    auto.
  - intros NE.
    destruct (Part000_handlePostBatch_report host request env body items Hj Hl start NE)
      as (saved & failed & w & E & S & C & _ & A).
    exists saved, failed, w. unfold run.
    rewrite (Part000_batch_route host request env Hm Hp), (try_catch_ok _ _ _ _ _ E).
    auto.
Qed.

(** C1 at a batch of three entries. *)
Lemma C1_batch_witness :
  exists saved failed w,
    run (Part000.fetch accepting
           (request0 "POST" "/logs/batch" [] (VObj [("logs", VArr three_entries)])) env0)
    = (Ok (Part000.jsonResponse (batch_report 3 saved failed) 201), w)
    /\ (saved + failed)%nat = 3%nat
    /\ List.length (calls w) = 2%nat.
Proof.
  destruct (C1_batch_attempts_a_prefix_and_reports accepting
              (request0 "POST" "/logs/batch" [] (VObj [("logs", VArr three_entries)])) env0
              (VObj [("logs", VArr three_entries)]) three_entries
              eq_refl eq_refl eq_refl eq_refl) as [_ P].
  destruct P as (saved & failed & w & E & S & C & _); [discriminate |].
  exists saved, failed, w. split; [exact E |]. split; [exact S |].
  rewrite C. reflexivity.
Defined.

(** C3, as the specification words it, fails twice.  On [src/worker.js]
    an empty array passes the guard and is answered with status 201.  And
    in both files the body [null], in which [logs] is absent, makes
    [body.logs] throw, so that the guard of [fetch] answers status 500,
    not 400.  No outbound call is made in either case. *)
Lemma C3_batch_is_not_always_status_400 :
  (exists r w,
      run (Worker.fetch accepting
             (request0 "POST" "/logs/batch" [] (VObj [("logs", VArr [])])) env0) = (Ok r, w)
      /\ status r = 201
      /\ status r <> 400 /\ calls w = [])
  /\ prop VNull "logs" = VUndefined
  /\ (exists r w,
        run (Worker.fetch accepting (request0 "POST" "/logs/batch" [] VNull) env0) = (Ok r, w)
        /\ status r = 500 /\ status r <> 400 /\ calls w = [])
  /\ (exists r w,
        run (Part000.fetch accepting (request0 "POST" "/logs/batch" [] VNull) env0) = (Ok r, w)
        /\ status r = 500 /\ status r <> 400 /\ calls w = []).
Proof.
  split; [| split; [reflexivity | split]];
    eexists _, _; (split; [vm_compute; reflexivity |]);
    (split; [reflexivity |]); (split; [discriminate | reflexivity]).
Qed.

(** C3 (amended).  A batch write whose body is a JSON value other than
    [null] and whose [logs] is absent or is not an array is answered with
    status 400 by both files, and the invocation ends in the world it
    started in: no outbound call.  For the empty array no outbound call is
    made either; [src/unnamed/part_000] answers it with status 400,
    [src/worker.js] with status 201 and a report of zero entries.  For the
    body [null] the TypeError of [body.logs] is caught by the guard of
    [fetch]: status 500, the error's message as [{error}], the error
    logged, and no outbound call.  Every parsed body is of one kind or the
    other. *)
Theorem C3_batch_rejects_what_is_not_an_array :
  forall (host : Host) (request : Request) (env : Env) (body : value),
    method request = "POST" ->
    pathname request = "/logs/batch" ->
    json request = Ok body ->
    (forall logs,
        get body "logs" = Ok logs ->
        (Array_isArray logs = false ->
           run (Worker.fetch host request env)
           = (Ok (Worker.jsonResponse (VObj [("error", VStr "Invalid logs array")]) 400),
              start)
           /\ run (Part000.fetch host request env)
              = (Ok (Part000.jsonResponse
                       (VObj [("error", VStr "Missing or invalid logs array")]) 400),
                 start))
        /\ (logs = VArr [] ->
            run (Worker.fetch host request env)
            = (Ok (Worker.jsonResponse (batch_report 0 0 0) 201), start)
            /\ run (Part000.fetch host request env)
               = (Ok (Part000.jsonResponse
                        (VObj [("error", VStr "Missing or invalid logs array")]) 400),
                  start))
        /\ calls start = [])
    /\ (nullish body = true ->
        exists e,
          get body "logs" = Throw e
          /\ run (Worker.fetch host request env)
             = (Ok (Worker.jsonResponse (VObj [("error", VStr (message e))]) 500),
                mkWorld 0 [] [e])
          /\ run (Part000.fetch host request env)
             = (Ok (Part000.jsonResponse (VObj [("error", VStr (message e))]) 500),
                mkWorld 0 [] [e]))
    /\ (nullish body = false -> get body "logs" = Ok (prop body "logs")).
Proof.
  intros host request env body Hm Hp Hj.
  unfold run.
  rewrite (Worker_batch_route host request env Hm Hp),
    (Part000_batch_route host request env Hm Hp).
  unfold Worker.handlePostBatch, Part000.handlePostBatch, Worker.on_error,
    Part000.on_error.
  unmonad. rewrite Hj.
  split; [| split; [| apply get_prop]].
  - intros logs Hl. rewrite Hl. repeat split.
    + rewrite H. now rewrite orb_true_r.
    + rewrite H. now rewrite orb_true_r.
    + subst logs. reflexivity.
    + subst logs. reflexivity.
  - intros N. destruct body; try discriminate N; cbn [get]; eexists; repeat split.
Qed.

(** C3 at a body without [logs], at one whose [logs] is a string, and at
    the body [null]. *)
Lemma C3_batch_witness :
  fst (run (Worker.fetch accepting (request0 "POST" "/logs/batch" [] (VObj [])) env0))
    = Ok (Worker.jsonResponse (VObj [("error", VStr "Invalid logs array")]) 400)
  /\ run (Part000.fetch accepting
            (request0 "POST" "/logs/batch" [] (VObj [("logs", VStr "one")])) env0)
    = (Ok (Part000.jsonResponse (VObj [("error", VStr "Missing or invalid logs array")]) 400),
       start)
  /\ (exists e,
        run (Worker.fetch accepting (request0 "POST" "/logs/batch" [] VNull) env0)
        = (Ok (Worker.jsonResponse (VObj [("error", VStr (message e))]) 500),
           mkWorld 0 [] [e])).
Proof.
  split; [| split].
  - destruct (C3_batch_rejects_what_is_not_an_array accepting
                (request0 "POST" "/logs/batch" [] (VObj [])) env0 (VObj [])
                eq_refl eq_refl eq_refl) as [A _].
    destruct (A VUndefined eq_refl) as [B _].
    destruct (B eq_refl) as [W _]. now rewrite W.
  - destruct (C3_batch_rejects_what_is_not_an_array accepting
                (request0 "POST" "/logs/batch" [] (VObj [("logs", VStr "one")])) env0
                (VObj [("logs", VStr "one")])
                eq_refl eq_refl eq_refl) as [A _].
    destruct (A (VStr "one") eq_refl) as [B _].
    destruct (B eq_refl) as [_ P]. exact P.
  - destruct (C3_batch_rejects_what_is_not_an_array accepting
                (request0 "POST" "/logs/batch" [] VNull) env0 VNull
                eq_refl eq_refl eq_refl) as (_ & N & _).
    destruct (N eq_refl) as (e & _ & W & _). exists e. exact W.
Defined.

(* ---------------------------------------------------------------------- *)
(** *** Entries without [level] or [message] in a batch *)

(** C2 is not what the code does.  [insertSingleLog] builds the payload and
    issues the insert without the test [handlePostLog] applies to [level]
    and [message]: against a backend that accepts every insert, the three
    entries of [unlabelled_entries] are all sent (with [level] undefined,
    empty and ["info"], and [message] present, empty and undefined) and
    all counted as saved, by either file. *)
Theorem C2_batch_entries_are_sent_unvalidated :
  (exists w,
      run (Worker.fetch accepting (batch_of unlabelled_entries) env0)
      = (Ok (Worker.jsonResponse (batch_report 3 3 0) 201), w)
      /\ map (sent_prop "level") (calls w) = [VUndefined; VStr ""; VStr "info"]
      /\ map (sent_prop "message") (calls w) = [VStr "no level"; VStr ""; VUndefined])
  /\ (exists w,
      run (Part000.fetch accepting (batch_of unlabelled_entries) env0)
      = (Ok (Part000.jsonResponse (batch_report 3 3 0) 201), w)
      /\ map (sent_prop "level") (calls w) = [VUndefined; VStr ""; VStr "info"]
      /\ map (sent_prop "message") (calls w) = [VStr "no level"; VStr ""; VUndefined]).
Proof.
  split; eexists; (split; [vm_compute; reflexivity |]); split; reflexivity.
Qed.

(** The single writer refuses each of these entries (compare C4). *)
Example single_write_refuses_unlabelled_entries :
  Forall (fun entry =>
            exists r w,
              run (Worker.fetch accepting (request0 "POST" "/logs" [] entry) env0) = (Ok r, w)
              /\ status r = 400 /\ calls w = [])
         unlabelled_entries.
Proof.
  repeat constructor; eexists _, _; (split; [vm_compute; reflexivity |]); split; reflexivity.
Qed.

(* ---------------------------------------------------------------------- *)
(** *** The expiry stamp *)

Lemma payload_at_same a b hs now :
  same_but_expires_at a b -> payload_at a hs now = payload_at b hs now.
Proof.
  intros [-> | (_ & _ & P)]; [reflexivity |].
  unfold payload_at. rewrite !P by discriminate. reflexivity.
Qed.

Lemma same_nullish a b : same_but_expires_at a b -> nullish a = nullish b.
Proof. intros [-> | (Na & Nb & _)]; congruence. Qed.

Lemma same_get a b k :
  same_but_expires_at a b -> k <> "expires_at" -> get a k = get b k.
Proof.
  intros [-> | (Na & Nb & P)] D; [reflexivity |].
  rewrite (get_prop a k Na), (get_prop b k Nb). f_equal. now apply P.
Qed.

Section Expiry.

Variables (host : Host) (env : Env) (hs : Headers).

Lemma payload_of_same a b w :
  same_but_expires_at a b ->
  Shared.payload_of host a hs w = Shared.payload_of host b hs w.
Proof.
  intros S. destruct S as [-> | (Na & Nb & P)]; [reflexivity |].
  rewrite !payload_of_readable by assumption.
  f_equal. f_equal. apply payload_at_same. right. auto.
Qed.

Lemma insertSingleLog_same a b w :
  same_but_expires_at a b ->
  Shared.insertSingleLog host env a hs w = Shared.insertSingleLog host env b hs w.
Proof.
  intros S. unfold Shared.insertSingleLog. unfold bind at 1 3.
  now rewrite (payload_of_same a b w S).
Qed.

Lemma allSettled_same (l l' : list value) :
  Forall2 same_but_expires_at l l' ->
  forall w,
    allSettled_map (fun log => Shared.insertSingleLog host env log hs) l w
    = allSettled_map (fun log => Shared.insertSingleLog host env log hs) l' w.
Proof.
  induction 1 as [| a b l l' S _ IH]; intros w; simpl; [reflexivity |].
  rewrite (insertSingleLog_same a b w S).
  destruct (Shared.insertSingleLog host env b hs w) as [r w1].
  now rewrite IH.
Qed.

(** The [i]-th call of a batch carries the [i]-th reading of the clock
    plus thirty days. *)
Lemma batch_calls_expiry clock logs :
  forall k i c,
    nth_error (batch_calls env hs clock k logs) i = Some c ->
    sent_prop "expires_at" c = VStr (toISOString (clock (k + i)%nat + 2592000000)).
Proof.
  induction logs as [| log rest IH]; intros k i c E; simpl in E.
  - destruct i; discriminate E.
  - destruct (nullish log); [now apply IH |].
    destruct i as [| i]; simpl in E.
    + injection E as <-. now rewrite Nat.add_0_r.
    + rewrite <- Nat.add_succ_comm. now apply IH.
Qed.

End Expiry.

Lemma Forall2_firstn {A : Type} (R : A -> A -> Prop) n :
  forall l l', Forall2 R l l' -> Forall2 R (firstn n l) (firstn n l').
Proof.
  induction n as [| n IH]; intros l l' F; simpl; [constructor |].
  destruct F; constructor; auto.
Qed.

Section SingleWrite.

Variables (host : Host) (request : Request) (env : Env) (body : value).

Hypothesis is_post : method request = "POST".
Hypothesis is_logs : pathname request = "/logs".
Hypothesis body_parsed : json request = Ok body.

Hypothesis has_level : has body "level".
Hypothesis has_message : has body "message".

Let sent : Call :=
  Shared.insert_call env "return=representation"
    (payload_at body (headers request) (clock host 0)).

Lemma Worker_single_write_calls :
  calls (snd (run (Worker.fetch host request env))) = [sent].
Proof.
  assert (N : nullish body = false) by eauto using has_nullish.
  pose proof (has_prop _ _ has_level) as L. pose proof (has_prop _ _ has_message) as Ms.
  unfold run. rewrite (Worker_single_route host request env is_post is_logs).
  unfold Worker.handlePostLog, Worker.on_error. unmonad.
  rewrite body_parsed, !(get_prop body _ N), L, Ms. cbn [negb].
  rewrite (payload_of_readable host _ _ _ N). cbn [calls ticks console List.length app].
  fold sent. repeat split_next; reflexivity.
Qed.

Lemma Part000_single_write_calls :
  calls (snd (run (Part000.fetch host request env))) = [sent].
Proof.
  assert (N : nullish body = false) by eauto using has_nullish.
  pose proof (has_prop _ _ has_level) as L. pose proof (has_prop _ _ has_message) as Ms.
  unfold run. rewrite (Part000_single_route host request env is_post is_logs).
  unfold Part000.handlePostLog, Part000.on_error. unmonad.
  rewrite body_parsed, !(get_prop body _ N), L, Ms. cbn [negb].
  rewrite (payload_of_readable host _ _ _ N). cbn [calls ticks console List.length app].
  fold sent. repeat split_next; reflexivity.
Qed.

End SingleWrite.

Section ClientExpiry.

Variables (host : Host) (request : Request) (env : Env) (body body' : value).

Hypothesis body_parsed : json request = Ok body.

Lemma Worker_handlePostLog_same w :
  same_but_expires_at body body' ->
  Worker.handlePostLog host (with_body request body') env w
  = Worker.handlePostLog host request env w.
Proof.
  intros S. unfold Worker.handlePostLog. unmonad. cbn [json with_body headers].
  rewrite body_parsed.
  rewrite <- (same_get body body' "level" S), <- (same_get body body' "message" S)
    by discriminate.
  repeat first
    [ reflexivity
    | rewrite <- (payload_of_same host (headers request) body body' _ S)
    | split_next ].
Qed.

Lemma Part000_handlePostLog_same w :
  same_but_expires_at body body' ->
  Part000.handlePostLog host (with_body request body') env w
  = Part000.handlePostLog host request env w.
Proof.
  intros S. unfold Part000.handlePostLog. unmonad. cbn [json with_body headers].
  rewrite body_parsed.
  rewrite <- (same_get body body' "level" S), <- (same_get body body' "message" S)
    by discriminate.
  repeat first
    [ reflexivity
    | rewrite <- (payload_of_same host (headers request) body body' _ S)
    | split_next ].
Qed.

Variables (items items' : list value).

Hypothesis logs_is_array : get body "logs" = Ok (VArr items).
Hypothesis logs_is_array' : get body' "logs" = Ok (VArr items').
Hypothesis same_entries : Forall2 same_but_expires_at items items'.

Lemma Worker_handlePostBatch_same w :
  Worker.handlePostBatch host (with_body request body') env w
  = Worker.handlePostBatch host request env w.
Proof.
  unfold Worker.handlePostBatch. unmonad. cbn [json with_body headers].
  rewrite body_parsed, logs_is_array, logs_is_array'.
  cbn [truthy Array_isArray negb orb elements]. unfold slice0.
  pose proof (allSettled_same host env (headers request) _ _
                (Forall2_firstn _ 100 _ _ same_entries) w) as E.
  rewrite E.
  rewrite !length_firstn, (Forall2_length same_entries). reflexivity.
Qed.

Lemma Part000_handlePostBatch_same w :
  Part000.handlePostBatch host (with_body request body') env w
  = Part000.handlePostBatch host request env w.
Proof.
  unfold Part000.handlePostBatch. unmonad. cbn [json with_body headers].
  rewrite body_parsed, logs_is_array, logs_is_array'.
  cbn [truthy Array_isArray negb orb elements]. unfold slice0.
  rewrite <- (Forall2_length same_entries).
  destruct (List.length items =? 0)%nat; [reflexivity |].
  pose proof (allSettled_same host env (headers request) _ _
                (Forall2_firstn _ 100 _ _ same_entries) w) as E.
  rewrite E.
  rewrite !length_firstn, (Forall2_length same_entries). reflexivity.
Qed.

End ClientExpiry.

(** Every entry of a batch is either unreadable or the origin of one call. *)
Lemma batch_calls_count env hs clock logs :
  forall k,
    (List.length (batch_calls env hs clock k logs) + unreadable logs)%nat = List.length logs.
Proof.
  induction logs as [| log rest IH]; intros k; simpl; [reflexivity |].
  pose proof (IH k). pose proof (IH (S k)).
  destruct (nullish log); simpl; lia.
Qed.

Lemma batch_calls_app env hs clock l1 l2 :
  forall k,
    batch_calls env hs clock k (l1 ++ l2)
    = (batch_calls env hs clock k l1
       ++ batch_calls env hs clock (k + List.length (batch_calls env hs clock k l1)) l2)%list.
Proof.
  induction l1 as [| x l1 IH]; intros k; simpl.
  - now rewrite Nat.add_0_r.
  - destruct (nullish x); [apply IH |].
    simpl. rewrite IH. now rewrite Nat.add_succ_r.
Qed.

Section BatchCalls.

Variables (host : Host) (request : Request) (env : Env) (body : value) (items : list value).

Hypothesis is_post : method request = "POST".
Hypothesis is_batch : pathname request = "/logs/batch".
Hypothesis body_parsed : json request = Ok body.
Hypothesis logs_is_array : get body "logs" = Ok (VArr items).

Lemma Worker_batch_calls :
  calls (snd (run (Worker.fetch host request env)))
  = batch_calls env (headers request) (clock host) 0 (firstn 100 items).
Proof.
  destruct (Worker_handlePostBatch_report host request env body items
              body_parsed logs_is_array start) as (s & f & w & E & _ & C & _).
  unfold run.
  rewrite (Worker_batch_route host request env is_post is_batch), (try_catch_ok _ _ _ _ _ E).
  exact C.
Qed.

Lemma Part000_batch_calls :
  items <> [] ->
  calls (snd (run (Part000.fetch host request env)))
  = batch_calls env (headers request) (clock host) 0 (firstn 100 items).
Proof.
  intros NE.
  destruct (Part000_handlePostBatch_report host request env body items
              body_parsed logs_is_array start NE) as (s & f & w & E & _ & C & _).
  unfold run.
  rewrite (Part000_batch_route host request env is_post is_batch), (try_catch_ok _ _ _ _ _ E).
  exact C.
Qed.

End BatchCalls.

(** Where the call of a readable entry stands among the calls of a batch:
    after the calls of the readable entries before it. *)
Lemma batch_calls_at env hs clock before entry after :
  nullish entry = false ->
  let i := (List.length before - unreadable before)%nat in
  nth_error (batch_calls env hs clock 0 (before ++ entry :: after)) i
  = Some (Shared.insert_call env "return=minimal" (payload_at entry hs (clock i))).
Proof.
  intros N i.
  pose proof (batch_calls_count env hs clock before 0) as C.
  assert (I : i = List.length (batch_calls env hs clock 0 before)) by (subst i; lia).
  rewrite batch_calls_app. cbn [batch_calls Nat.add]. rewrite N, <- I.
  rewrite nth_error_app2 by lia. rewrite I, Nat.sub_diag. reflexivity.
Qed.

Lemma nth_error_nil_none {A : Type} (i : nat) (c : A) : nth_error [] i <> Some c.
Proof. destruct i; discriminate. Qed.

(** C9.  Every accepted write carries, in the payload sent to the backend,
    an [expires_at] that is the server's clock at that write plus thirty
    days.  The single write issues exactly one call, stamped with the first
    reading of the clock.  In a batch every readable entry among the first
    100 is sent: its call stands at the position [i] that counts the
    readable entries before it, is built from that entry, and is stamped
    with the [i]-th reading of the clock; and every call of the batch is
    stamped in that way.  What the client puts into [expires_at] has no
    effect: two requests that differ at most in the [expires_at] of the
    entry, or of the entries of the batch, produce the same outbound
    calls, the same answer and the same log. *)
Theorem C9_expires_at_is_set_by_the_server :
  forall (host : Host) (request : Request) (env : Env) (body : value),
    method request = "POST" ->
    json request = Ok body ->
    (pathname request = "/logs" ->
       (has body "level" -> has body "message" ->
          let sent :=
            Shared.insert_call env "return=representation"
              (payload_at body (headers request) (clock host 0)) in
          calls (snd (run (Worker.fetch host request env))) = [sent]
          /\ calls (snd (run (Part000.fetch host request env))) = [sent]
          /\ sent_prop "expires_at" sent = VStr (toISOString (clock host 0 + thirty_days)))
       /\ (forall body',
             same_but_expires_at body body' ->
             run (Worker.fetch host (with_body request body') env)
             = run (Worker.fetch host request env)
             /\ run (Part000.fetch host (with_body request body') env)
                = run (Part000.fetch host request env)))
    /\ (pathname request = "/logs/batch" ->
        forall items,
          get body "logs" = Ok (VArr items) ->
          (forall before entry after,
              firstn 100 items = (before ++ entry :: after)%list ->
              nullish entry = false ->
              let i := (List.length before - unreadable before)%nat in
              let sent :=
                Shared.insert_call env "return=minimal"
                  (payload_at entry (headers request) (clock host i)) in
              nth_error (calls (snd (run (Worker.fetch host request env)))) i = Some sent
              /\ nth_error (calls (snd (run (Part000.fetch host request env)))) i = Some sent
              /\ sent_prop "expires_at" sent
                 = VStr (toISOString (clock host i + thirty_days)))
          /\ ((List.length (calls (snd (run (Worker.fetch host request env))))
               + unreadable (firstn 100 items))%nat
              = Nat.min (List.length items) 100)
          /\ (forall i c,
              nth_error (calls (snd (run (Worker.fetch host request env)))) i = Some c
              \/ nth_error (calls (snd (run (Part000.fetch host request env)))) i = Some c ->
              sent_prop "expires_at" c = VStr (toISOString (clock host i + thirty_days)))
          /\ (forall body' items',
                get body' "logs" = Ok (VArr items') ->
                Forall2 same_but_expires_at items items' ->
                run (Worker.fetch host (with_body request body') env)
                = run (Worker.fetch host request env)
                /\ run (Part000.fetch host (with_body request body') env)
                   = run (Part000.fetch host request env))).
Proof.
  intros host request env body Hm Hj. split.
  - intros Hp. split.
    + intros Hl Hmsg sent. subst sent.
      rewrite (Worker_single_write_calls host request env body Hm Hp Hj Hl Hmsg),
        (Part000_single_write_calls host request env body Hm Hp Hj Hl Hmsg).
      repeat split.
    + intros body' S. unfold run.
      rewrite (Worker_single_route host request env Hm Hp),
        (Part000_single_route host request env Hm Hp),
        (Worker_single_route host (with_body request body') env Hm Hp),
        (Part000_single_route host (with_body request body') env Hm Hp).
      unfold try_catch.
      now rewrite (Worker_handlePostLog_same host request env body body' Hj start S),
        (Part000_handlePostLog_same host request env body body' Hj start S).
  - intros Hp items Hl.
    pose proof (Worker_batch_calls host request env body items Hm Hp Hj Hl) as W.
    pose proof (Part000_batch_calls host request env body items Hm Hp Hj Hl) as P.
    split; [| split; [| split]].
    + intros before entry after F N i sent.
      assert (NE : items <> []).
      { intros ->. destruct before; discriminate F. }
      rewrite W, (P NE), F.
      pose proof (batch_calls_at env (headers request) (clock host) before entry after N)
        as A.
      cbv zeta in A. fold i in A. fold sent in A.
      repeat split; exact A.
    + rewrite W.
      pose proof (batch_calls_count env (headers request) (clock host)
                    (firstn 100 items) 0) as C.
      rewrite C, length_firstn. apply Nat.min_comm.
    + intros i c [E | E].
      * rewrite W in E.
        exact (batch_calls_expiry env (headers request) (clock host) _ 0%nat i c E).
      * destruct items as [| first others].
        -- exfalso. revert E. unfold run.
           rewrite (Part000_batch_route host request env Hm Hp).
           unfold Part000.handlePostBatch. unmonad. rewrite Hj, Hl.
           apply nth_error_nil_none.
        -- rewrite P in E by discriminate.
           exact (batch_calls_expiry env (headers request) (clock host) _ 0%nat i c E).
    + intros body' items' Hl' F. unfold run.
      rewrite (Worker_batch_route host request env Hm Hp),
        (Part000_batch_route host request env Hm Hp),
        (Worker_batch_route host (with_body request body') env Hm Hp),
        (Part000_batch_route host (with_body request body') env Hm Hp).
      unfold try_catch.
      now rewrite (Worker_handlePostBatch_same host request env body body' Hj
                     items items' Hl Hl' F start),
        (Part000_handlePostBatch_same host request env body body' Hj
           items items' Hl Hl' F start).
Qed.

(** C9 at a single write whose body carries its own [expires_at], and at
    the third entry of a batch whose second entry is [null]: it is sent as
    the second call, stamped with the second reading of the clock. *)
Lemma C9_expires_at_witness :
  (sent_prop "expires_at"
     (Shared.insert_call env0 "return=representation" (payload_at plain browser (clock0 0)))
   = VStr "2023-12-14T22:13:20.000Z"
   /\ run (Worker.fetch accepting (with_body (request0 "POST" "/logs" [] plain) stamped) env0)
      = run (Worker.fetch accepting (request0 "POST" "/logs" [] plain) env0))
  /\ (exists sent,
        nth_error (calls (snd (run (Part000.fetch accepting (batch_of three_entries) env0)))) 1
        = Some sent
        /\ sent_prop "message" sent = VStr "three"
        /\ sent_prop "expires_at" sent = VStr "2023-12-14T22:13:20.001Z").
Proof.
  split.
  - destruct (C9_expires_at_is_set_by_the_server accepting
                (request0 "POST" "/logs" [] plain) env0 plain eq_refl eq_refl) as [S _].
    destruct (S eq_refl) as [A B]. split.
    + destruct A as (_ & _ & X).
      * exists (VStr "info"). split; reflexivity.
      * exists (VStr "hi"). split; reflexivity.
      * exact X.
    + destruct (B stamped) as [W _]; [| exact W].
      right. repeat split.
      intros k D. unfold prop, plain, stamped. simpl.
      destruct (String.eqb k "level"); [reflexivity |].
      destruct (String.eqb k "message"); [reflexivity |].
      apply String.eqb_neq in D. now rewrite D.
  - destruct (C9_expires_at_is_set_by_the_server accepting
                (batch_of three_entries) env0 (VObj [("logs", VArr three_entries)])
                eq_refl eq_refl) as [_ B].
    destruct (B eq_refl three_entries eq_refl) as (E & _).
    destruct (E [VObj [("level", VStr "info"); ("message", VStr "one")]; VNull]
                (VObj [("level", VStr "warn"); ("message", VStr "three")]) []
                eq_refl eq_refl) as (_ & P & X).
    eexists. split; [exact P |]. split; [reflexivity | exact X].
Defined.

(* ---------------------------------------------------------------------- *)
(** *** The reader's query *)

Lemma append_assoc (a b c : string) : (a ++ b) ++ c = a ++ b ++ c.
Proof. induction a; simpl; congruence. Qed.

Lemma parseInt_null : parseInt "null" = None.
Proof. reflexivity. Qed.

Lemma num_or_number_or (param : option string) (d : Z) :
  num_or (parseInt (ToString_nullable param)) d = number_or param d.
Proof. destruct param; reflexivity. Qed.

Section Reader.

Variables (host : Host) (request : Request) (env : Env).

Hypothesis is_get : method request = "GET".
Hypothesis is_logs : pathname request = "/logs".

Let limit : Z :=
  Z.min (number_or (searchParams_get (searchParams request) "limit") 100) 500.
Let offset : Z := number_or (searchParams_get (searchParams request) "offset") 0.

Lemma Worker_reader_calls :
  calls (snd (run (Worker.fetch host request env)))
  = [Worker.read_call env (reader_query env ++ show host limit ++ session_filter request)].
Proof.
  unfold run. rewrite (Worker_reader_route host request env is_get is_logs).
  unfold Worker.handleGetLogs, Worker.on_error, session_filter, reader_query. unmonad.
  rewrite num_or_number_or. unfold Math_min. fold limit.
  assert (Q : forall tail,
             (SUPABASE_URL env
              ++ "/rest/v1/console_logs?select=*&order=created_at.desc&limit=" ++ show host limit)
             ++ tail
             = (SUPABASE_URL env
                ++ "/rest/v1/console_logs?select=*&order=created_at.desc&limit=")
               ++ show host limit ++ tail).
  { intros tail. now rewrite !append_assoc. }
  destruct (searchParams_get (searchParams request) "session") as [s |];
    cbn [nullable truthy ToString_nullable].
  - destruct (String.eqb s ""); cbn [negb]; rewrite <- Q, ?append_empty_r;
      repeat split_next; reflexivity.
  - rewrite <- Q, append_empty_r. repeat split_next; reflexivity.
Qed.

Lemma Part000_reader_calls :
  calls (snd (run (Part000.fetch host request env)))
  = [Part000.read_call env
       (reader_query env ++ show host limit ++ "&offset=" ++ show host offset
        ++ session_filter request)].
Proof.
  unfold run. rewrite (Part000_reader_route host request env is_get is_logs).
  unfold Part000.handleGetLogs, Part000.on_error, session_filter, reader_query. unmonad.
  rewrite !num_or_number_or. unfold Math_min. fold limit. fold offset.
  assert (Q : forall tail,
             (SUPABASE_URL env
              ++ "/rest/v1/console_logs?select=*&order=created_at.desc&limit="
              ++ show host limit ++ "&offset=" ++ show host offset)
             ++ tail
             = (SUPABASE_URL env
                ++ "/rest/v1/console_logs?select=*&order=created_at.desc&limit=")
               ++ show host limit ++ "&offset=" ++ show host offset ++ tail).
  { intros tail. now rewrite !append_assoc. }
  destruct (searchParams_get (searchParams request) "session") as [s |];
    cbn [nullable truthy ToString_nullable].
  - destruct (String.eqb s ""); cbn [negb]; rewrite <- Q, ?append_empty_r;
      repeat split_next; reflexivity.
  - rewrite <- Q, append_empty_r. repeat split_next; reflexivity.
Qed.

End Reader.

(** C5, as the specification words it, fails twice.  [src/worker.js] never
    reads [offset]: for [GET /logs?offset=5] its query carries no offset at
    all.  And both files add the session filter only to a session that is
    not empty: for [GET /logs?session=] the query carries no filter. *)
Lemma C5_reader_query_is_not_as_specified :
  (exists c,
      calls (snd (run (Worker.fetch accepting (request0 "GET" "/logs" [("offset", "5")] VNull)
                         env0))) = [c]
      /\ contains "offset" (call_url c) = false
      /\ ~ query_as_specified (call_url c) 100 5 None)
  /\ (exists c,
      calls (snd (run (Part000.fetch accepting (request0 "GET" "/logs" [("session", "")] VNull)
                         env0))) = [c]
      /\ contains "session_id" (call_url c) = false
      /\ ~ query_as_specified (call_url c) 100 0 (Some "")).
Proof.
  split; eexists; (split; [vm_compute; reflexivity |]); (split; [vm_compute; reflexivity |]).
  - intros (_ & _ & _ & O & _). vm_compute in O. discriminate O.
  - intros (_ & _ & _ & _ & F). vm_compute in F. discriminate F.
Qed.

(** C5 (amended).  A [GET /logs] issues exactly one outbound call, a read
    of [console_logs] that selects all fields and orders by [created_at]
    descending.  Its [limit] is the [limit] parameter (100 when the
    parameter is absent, does not parse or parses to 0) capped at 500.  In
    [src/unnamed/part_000] it carries [offset], the [offset] parameter (0
    when absent, unparsable or 0); [src/worker.js] sends no offset.  When
    [session] is supplied and not empty, the query ends with the filter
    [session_id=eq.] followed by the percent-encoded session. *)
Theorem C5_reader_query :
  forall (host : Host) (request : Request) (env : Env),
    method request = "GET" ->
    pathname request = "/logs" ->
    let limit := Z.min (number_or (searchParams_get (searchParams request) "limit") 100) 500 in
    let offset := number_or (searchParams_get (searchParams request) "offset") 0 in
    calls (snd (run (Worker.fetch host request env)))
    = [Worker.read_call env
         (SUPABASE_URL env ++ "/rest/v1/console_logs?select=*&order=created_at.desc&limit="
          ++ show host limit ++ session_filter request)]
    /\ calls (snd (run (Part000.fetch host request env)))
       = [Part000.read_call env
            (SUPABASE_URL env ++ "/rest/v1/console_logs?select=*&order=created_at.desc&limit="
             ++ show host limit ++ "&offset=" ++ show host offset ++ session_filter request)]
    /\ (forall s, searchParams_get (searchParams request) "session" = Some s -> s <> "" ->
        session_filter request = "&session_id=eq." ++ encodeURIComponent s)
    /\ limit <= 500.
Proof.
  intros host request env Hm Hp limit offset.
  rewrite (Worker_reader_calls host request env Hm Hp),
    (Part000_reader_calls host request env Hm Hp).
  unfold reader_query. rewrite !append_assoc. repeat split.
  - intros s E NE. unfold session_filter. rewrite E.
    apply String.eqb_neq in NE. now rewrite NE.
  - apply Z.le_min_r.
Qed.

(** C5 at [GET /logs?limit=1000&offset=20&session=a b]. *)
Lemma C5_reader_query_witness :
  map call_url
    (calls (snd (run (Worker.fetch accepting
                        (request0 "GET" "/logs"
                           [("limit", "1000"); ("offset", "20"); ("session", "a b")] VNull)
                        env0))))
  = ["https://db.example/rest/v1/console_logs?select=*&order=created_at.desc&limit=500&session_id=eq.a%20b"]
  /\ map call_url
       (calls (snd (run (Part000.fetch accepting
                           (request0 "GET" "/logs"
                              [("limit", "1000"); ("offset", "20"); ("session", "a b")] VNull)
                           env0))))
     = ["https://db.example/rest/v1/console_logs?select=*&order=created_at.desc&limit=500&offset=20&session_id=eq.a%20b"].
Proof.
  destruct (C5_reader_query accepting
              (request0 "GET" "/logs"
                 [("limit", "1000"); ("offset", "20"); ("session", "a b")] VNull)
              env0 eq_refl eq_refl) as (W & P & _).
  rewrite W, P. split; reflexivity.
Defined.

(** C10.  In [GET /logs], a [limit] parameter that is absent, does not
    parse as an integer or parses to 0 yields the limit 100.  The cap is
    the upper bound of a [min]: a positive value is sent as the smaller of
    itself and 500, and a negative one is sent as it is (in its decimal
    digits, for every value down to -2^53). *)
Theorem C10_effective_limit :
  forall (host : Host) (request : Request) (env : Env),
    method request = "GET" ->
    pathname request = "/logs" ->
    let param := searchParams_get (searchParams request) "limit" in
    let offset := number_or (searchParams_get (searchParams request) "offset") 0 in
    let sends_limit (text : string) :=
      calls (snd (run (Worker.fetch host request env)))
      = [Worker.read_call env
           (SUPABASE_URL env ++ "/rest/v1/console_logs?select=*&order=created_at.desc&limit="
            ++ text ++ session_filter request)]
      /\ calls (snd (run (Part000.fetch host request env)))
         = [Part000.read_call env
              (SUPABASE_URL env ++ "/rest/v1/console_logs?select=*&order=created_at.desc&limit="
               ++ text ++ "&offset=" ++ show host offset ++ session_filter request)] in
    (param = None \/ (exists s, param = Some s /\ (parseInt s = None \/ parseInt s = Some 0)) ->
       sends_limit "100")
    /\ (forall s z, param = Some s -> parseInt s = Some z -> 0 < z ->
        sends_limit (show host (Z.min z 500)))
    /\ (forall s z, param = Some s -> parseInt s = Some z -> z < 0 ->
        sends_limit (show host z)
        /\ (- 2 ^ 53 <= z -> show host z = decimal z)).
Proof.
  intros host request env Hm Hp param offset sends_limit.
  assert (G : forall l,
             number_or param 100 = l ->
             sends_limit (show host (Z.min l 500))).
  { intros l E. subst sends_limit. cbv beta.
    rewrite (Worker_reader_calls host request env Hm Hp),
      (Part000_reader_calls host request env Hm Hp).
    fold param. rewrite E. unfold reader_query. rewrite !append_assoc. split; reflexivity. }
  split; [| split].
  - intros H.
    assert (E : number_or param 100 = 100).
    { destruct H as [-> | (s & -> & [P | P])]; simpl; rewrite ?P; reflexivity. }
    apply (G 100 E).
  - intros s z E P Hz. apply G. rewrite E. simpl. rewrite P.
    destruct (Z.eqb_spec z 0); [lia | reflexivity].
  - intros s z E P Hz. split.
    + replace z with (Z.min z 500) at 1 by lia.
      apply G. rewrite E. simpl. rewrite P.
      destruct (Z.eqb_spec z 0); [lia | reflexivity].
    + intros B. apply show_decimal. lia.
Qed.

(** C10 at [GET /logs?limit=abc] and at [GET /logs?limit=-5]. *)
Lemma C10_effective_limit_witness :
  map call_url
    (calls (snd (run (Worker.fetch accepting
                        (request0 "GET" "/logs" [("limit", "abc")] VNull) env0))))
  = ["https://db.example/rest/v1/console_logs?select=*&order=created_at.desc&limit=100"]
  /\ map call_url
       (calls (snd (run (Part000.fetch accepting
                           (request0 "GET" "/logs" [("limit", "-5")] VNull) env0))))
     = ["https://db.example/rest/v1/console_logs?select=*&order=created_at.desc&limit=-5&offset=0"].
Proof.
  split.
  - destruct (C10_effective_limit accepting
                (request0 "GET" "/logs" [("limit", "abc")] VNull) env0 eq_refl eq_refl)
      as (D & _ & _).
    destruct D as [W _].
    + right. exists "abc". split; [reflexivity | left; reflexivity].
    + rewrite W. reflexivity.
  - destruct (C10_effective_limit accepting
                (request0 "GET" "/logs" [("limit", "-5")] VNull) env0 eq_refl eq_refl)
      as (_ & _ & N).
    destruct (N "-5" (-5) eq_refl eq_refl) as [[_ P] _]; [lia |].
    rewrite P. reflexivity.
Defined.

(* ====================================================================== *)
(** ** Further properties of the two Workers *)
(* ====================================================================== *)

(* ---------------------------------------------------------------------- *)
(** *** Preflight and health *)

(** X1.  An [OPTIONS] request is answered before anything else is looked
    at: whatever its path, query, headers and body (even a body that is not
    JSON), the answer has no body and the file's cross-origin table, with
    status 204 in [src/worker.js] and 200 in [src/unnamed/part_000], and
    the invocation touches neither the backend, nor the clock, nor the
    console. *)
Theorem X1_preflight_answers_before_routing :
  forall (host : Host) (request : Request) (env : Env),
    method request = "OPTIONS" ->
    run (Worker.fetch host request env)
    = (Ok (mkResponse Empty 204 Worker.CORS_HEADERS), start)
    /\ run (Part000.fetch host request env)
       = (Ok (mkResponse Empty 200 Part000.CORS_HEADERS), start).
Proof.
  intros host request env Hm. unfold run, Worker.fetch, Part000.fetch.
  rewrite Hm. split; reflexivity.
Qed.

(** X1 at a preflight for a path that is not routed, with a broken body. *)
Lemma X1_preflight_witness :
  run (Worker.fetch offline (garbled "OPTIONS" "/no/such/path") env0)
  = (Ok (mkResponse Empty 204 Worker.CORS_HEADERS), start)
  /\ run (Part000.fetch offline (garbled "OPTIONS" "/no/such/path") env0)
     = (Ok (mkResponse Empty 200 Part000.CORS_HEADERS), start).
Proof.
  apply (X1_preflight_answers_before_routing offline (garbled "OPTIONS" "/no/such/path") env0).
  reflexivity.
Defined.

(** X2.  The health check answers status 200 with [{status: "ok",
    timestamp}], the timestamp being the one reading of the clock it
    makes, in ISO form; it never calls the backend and never reads the
    request body.  [src/worker.js] answers it for every method but
    [OPTIONS]; [src/unnamed/part_000] for [GET] only, any other method on
    [/health] getting the 404. *)
Theorem X2_health_reports_the_clock :
  forall (host : Host) (request : Request) (env : Env),
    method request <> "OPTIONS" ->
    pathname request = "/health" ->
    run (Worker.fetch host request env)
    = (Ok (Worker.jsonResponse (health_report (clock host 0)) 200), mkWorld 1 [] [])
    /\ (method request = "GET" ->
        run (Part000.fetch host request env)
        = (Ok (Part000.jsonResponse (health_report (clock host 0)) 200), mkWorld 1 [] []))
    /\ (method request <> "GET" ->
        run (Part000.fetch host request env)
        = (Ok (not_found Part000.CORS_HEADERS), start)).
Proof.
  intros host request env Ho Hp.
  apply String.eqb_neq in Ho.
  unfold run, Worker.fetch, Part000.fetch. rewrite Ho, Hp. repeat split.
  - intros Hm. rewrite Hm. reflexivity.
  - intros Hm. apply String.eqb_neq in Hm. rewrite Hm.
    destruct (String.eqb (method request) "POST"); reflexivity.
Qed.

(** X2 at [POST /health] with a body that is not JSON. *)
Lemma X2_health_witness :
  run (Worker.fetch offline (garbled "POST" "/health") env0)
  = (Ok (Worker.jsonResponse (health_report 1700000000000) 200), mkWorld 1 [] [])
  /\ run (Part000.fetch offline (garbled "POST" "/health") env0)
     = (Ok (not_found Part000.CORS_HEADERS), start).
Proof.
  assert (O : method (garbled "POST" "/health") <> "OPTIONS") by discriminate.
  destruct (X2_health_reports_the_clock offline (garbled "POST" "/health") env0 O eq_refl)
    as (W & _ & P).
  split; [exact W | apply P; discriminate].
Defined.

(* ---------------------------------------------------------------------- *)
(** *** The outcomes of a read and of a single write *)

(** X3.  When the backend accepts the read of a [GET /logs], the caller
    receives status 200 and, as the body, the backend's JSON value as it
    is, whatever it is (array or not); nothing is logged. *)
Theorem X3_read_returns_the_backend_json_verbatim :
  forall (host : Host) (request : Request) (env : Env) (a : Answer) (v : value),
    method request = "GET" ->
    pathname request = "/logs" ->
    (forall c, backend host 0%nat c = Ok a) ->
    ok a = true ->
    answer_json a = Ok v ->
    fst (run (Worker.fetch host request env)) = Ok (Worker.jsonResponse v 200)
    /\ fst (run (Part000.fetch host request env)) = Ok (Part000.jsonResponse v 200)
    /\ console (snd (run (Worker.fetch host request env))) = []
    /\ console (snd (run (Part000.fetch host request env))) = [].
Proof.
  intros host request env a v Hm Hp Hb Hok Hj. unfold run.
  rewrite (Worker_reader_route host request env Hm Hp),
    (Part000_reader_route host request env Hm Hp).
  unfold Worker.handleGetLogs, Part000.handleGetLogs. unmonad. cbn [calls List.length].
  rewrite !Hb, Hok, Hj. repeat split.
Qed.

(** X3 at the accepting backend. *)
Lemma X3_read_witness :
  fst (run (Worker.fetch accepting (request0 "GET" "/logs" [] VNull) env0))
  = Ok (Worker.jsonResponse (VArr [VObj [("id", VNum (Number 1))]]) 200).
Proof.
  apply (X3_read_returns_the_backend_json_verbatim accepting
           (request0 "GET" "/logs" [] VNull) env0 created
           (VArr [VObj [("id", VNum (Number 1))]])); reflexivity.
Defined.

(** X4.  A read or an accepted single write whose outbound call fails
    without an answer (the promise of [fetch] rejects with [e]), or is
    accepted with a body that is not JSON (so that [json()] rejects with
    [e]), ends like a refusal: status 500, body [{error: e.message}], and
    [e] written to the console, once.  The call was issued all the same. *)
Theorem X4_failed_exchange_is_status_500 :
  forall (host : Host) (request : Request) (env : Env) (e : error),
    ((forall c, backend host 0%nat c = Throw e)
     \/ exists a, (forall c, backend host 0%nat c = Ok a)
                  /\ ok a = true /\ answer_json a = Throw e) ->
    let failed (respond : value -> Z -> Response) (outcome : result Response * World) :=
      fst outcome = Ok (respond (VObj [("error", VStr (message e))]) 500)
      /\ console (snd outcome) = [e]
      /\ List.length (calls (snd outcome)) = 1%nat in
    (method request = "GET" -> pathname request = "/logs" ->
       failed Worker.jsonResponse (run (Worker.fetch host request env))
       /\ failed Part000.jsonResponse (run (Part000.fetch host request env)))
    /\ (method request = "POST" -> pathname request = "/logs" ->
        forall body, json request = Ok body -> has body "level" -> has body "message" ->
          failed Worker.jsonResponse (run (Worker.fetch host request env))
          /\ failed Part000.jsonResponse (run (Part000.fetch host request env))).
Proof.
  intros host request env e Hb failed. subst failed. cbv beta. split.
  - intros Hm Hp. unfold run.
    rewrite (Worker_reader_route host request env Hm Hp),
      (Part000_reader_route host request env Hm Hp).
    unfold Worker.handleGetLogs, Part000.handleGetLogs, Worker.on_error, Part000.on_error.
    unmonad. cbn [calls List.length].
    destruct Hb as [Hb | (a & Hb & Hok & Hj)].
    + rewrite !Hb. repeat split.
    + rewrite !Hb, Hok, Hj. repeat split.
  - intros Hm Hp body Hjs Hl Hmsg.
    assert (N : nullish body = false) by eauto using has_nullish.
    apply has_prop in Hl, Hmsg. unfold run.
    rewrite (Worker_single_route host request env Hm Hp),
      (Part000_single_route host request env Hm Hp).
    unfold Worker.handlePostLog, Part000.handlePostLog, Worker.on_error, Part000.on_error.
    unmonad.
    rewrite Hjs, !(get_prop body _ N), Hl, Hmsg. cbn [negb].
    rewrite !(payload_of_readable host _ _ _ N). cbn [calls ticks console List.length].
    destruct Hb as [Hb | (a & Hb & Hok & Hj)].
    + rewrite !Hb. repeat split.
    + rewrite !Hb, Hok, Hj. repeat split.
Qed.

(** X4 at a backend that cannot be reached. *)
Lemma X4_failed_exchange_witness :
  fst (run (Worker.fetch offline (request0 "GET" "/logs" [] VNull) env0))
  = Ok (Worker.jsonResponse (VObj [("error", VStr "fetch failed")]) 500)
  /\ fst (run (Part000.fetch offline (request0 "POST" "/logs" [] plain) env0))
     = Ok (Part000.jsonResponse (VObj [("error", VStr "fetch failed")]) 500).
Proof.
  assert (B : (forall c, backend offline 0%nat c = Throw unreachable)
              \/ exists a, (forall c, backend offline 0%nat c = Ok a)
                           /\ ok a = true /\ answer_json a = Throw unreachable)
    by (left; reflexivity).
  split.
  - destruct (X4_failed_exchange_is_status_500 offline
                (request0 "GET" "/logs" [] VNull) env0 unreachable B) as [G _].
    destruct (G eq_refl eq_refl) as [(W & _) _]. exact W.
  - destruct (X4_failed_exchange_is_status_500 offline
                (request0 "POST" "/logs" [] plain) env0 unreachable B) as [_ S].
    destruct (S eq_refl eq_refl plain eq_refl) as [_ (P & _)].
    + exists (VStr "info"). split; reflexivity.
    + exists (VStr "hi"). split; reflexivity.
    + exact P.
Defined.

(** X5.  An accepted single write that the backend accepts is answered with
    status 201 and [{success: true, data}], where [data] is the first row
    of the array the backend returned, and is undefined (so that the
    property is left out of the JSON text) when that array is empty.
    Nothing is logged. *)
Theorem X5_single_write_returns_the_first_row :
  forall (host : Host) (request : Request) (env : Env) (body : value)
         (a : Answer) (rows : list value),
    method request = "POST" ->
    pathname request = "/logs" ->
    json request = Ok body ->
    has body "level" ->
    has body "message" ->
    (forall c, backend host 0%nat c = Ok a) ->
    ok a = true ->
    answer_json a = Ok (VArr rows) ->
    let data := match rows with [] => VUndefined | row :: _ => row end in
    fst (run (Worker.fetch host request env))
    = Ok (Worker.jsonResponse (VObj [("success", VBool true); ("data", data)]) 201)
    /\ fst (run (Part000.fetch host request env))
       = Ok (Part000.jsonResponse (VObj [("success", VBool true); ("data", data)]) 201)
    /\ console (snd (run (Worker.fetch host request env))) = []
    /\ console (snd (run (Part000.fetch host request env))) = [].
Proof.
  intros host request env body a rows Hm Hp Hjs Hl Hmsg Hb Hok Hj data.
  assert (N : nullish body = false) by eauto using has_nullish.
  apply has_prop in Hl, Hmsg. unfold run.
  rewrite (Worker_single_route host request env Hm Hp),
    (Part000_single_route host request env Hm Hp).
  unfold Worker.handlePostLog, Part000.handlePostLog. unmonad.
  rewrite Hjs, !(get_prop body _ N), Hl, Hmsg. cbn [negb].
  rewrite !(payload_of_readable host _ _ _ N). cbn [calls ticks console List.length].
  rewrite !Hb, Hok, Hj. cbn [negb index0 hd]. subst data.
  destruct rows; repeat split.
Qed.

(** X5 at the accepting backend, which returns one row. *)
Lemma X5_single_write_witness :
  fst (run (Worker.fetch accepting (request0 "POST" "/logs" [] plain) env0))
  = Ok (Worker.jsonResponse
          (VObj [("success", VBool true); ("data", VObj [("id", VNum (Number 1))])]) 201).
Proof.
  destruct (X5_single_write_returns_the_first_row accepting
              (request0 "POST" "/logs" [] plain) env0 plain created
              [VObj [("id", VNum (Number 1))]] eq_refl eq_refl eq_refl) as (W & _).
  - exists (VStr "info"). split; reflexivity.
  - exists (VStr "hi"). split; reflexivity.
  - reflexivity.
  - reflexivity.
  - reflexivity.
  - exact W.
Defined.

(** X6.  A write request whose body is not JSON ([request.json()] rejects
    with [e]) ends in the guard of [fetch]: status 500 with
    [{error: e.message}], [e] logged, and no outbound call; the same on
    [POST /logs] and on [POST /logs/batch], in both files. *)
Theorem X6_unparsable_body_is_status_500 :
  forall (host : Host) (request : Request) (env : Env) (e : error),
    method request = "POST" ->
    pathname request = "/logs" \/ pathname request = "/logs/batch" ->
    json request = Throw e ->
    run (Worker.fetch host request env)
    = (Ok (Worker.jsonResponse (VObj [("error", VStr (message e))]) 500), mkWorld 0 [] [e])
    /\ run (Part000.fetch host request env)
       = (Ok (Part000.jsonResponse (VObj [("error", VStr (message e))]) 500),
          mkWorld 0 [] [e]).
Proof.
  intros host request env e Hm [Hp | Hp] Hj; unfold run.
  - rewrite (Worker_single_route host request env Hm Hp),
      (Part000_single_route host request env Hm Hp).
    unfold Worker.handlePostLog, Part000.handlePostLog, Worker.on_error, Part000.on_error.
    unmonad. rewrite Hj. split; reflexivity.
  - rewrite (Worker_batch_route host request env Hm Hp),
      (Part000_batch_route host request env Hm Hp).
    unfold Worker.handlePostBatch, Part000.handlePostBatch, Worker.on_error,
      Part000.on_error.
    unmonad. rewrite Hj. split; reflexivity.
Qed.

(** X6 at a batch request with a body that is not JSON. *)
Lemma X6_unparsable_body_witness :
  run (Worker.fetch accepting (garbled "POST" "/logs/batch") env0)
  = (Ok (Worker.jsonResponse (VObj [("error", VStr (message not_json))]) 500),
     mkWorld 0 [] [not_json])
  /\ run (Part000.fetch accepting (garbled "POST" "/logs/batch") env0)
     = (Ok (Part000.jsonResponse (VObj [("error", VStr (message not_json))]) 500),
        mkWorld 0 [] [not_json]).
Proof.
  apply (X6_unparsable_body_is_status_500 accepting (garbled "POST" "/logs/batch") env0
           not_json eq_refl (or_intror eq_refl) eq_refl).
Defined.

(* ---------------------------------------------------------------------- *)
(** *** What an invocation does to the outside *)

Lemma prefix_common (a b c : string) :
  String.prefix (a ++ b) (a ++ c) = String.prefix b c.
Proof.
  induction a as [| x a IH]; simpl; [reflexivity |].
  destruct (ascii_dec x x); [exact IH | congruence].
Qed.

Lemma prefix_append_r (p q t : string) :
  String.prefix p q = true -> String.prefix p (q ++ t) = true.
Proof.
  revert q. induction p as [| x p IH]; intros q H;
    [destruct (q ++ t); reflexivity |].
  destruct q as [| y q]; simpl in *; [discriminate |].
  destruct (ascii_dec x y); [now apply IH | discriminate].
Qed.

Lemma insert_call_targets env prefer payload :
  targets env "POST" (Shared.insert_call env prefer payload).
Proof.
  repeat split. unfold collection. cbn [call_url Shared.insert_call].
  rewrite <- (append_empty_r (SUPABASE_URL env ++ "/rest/v1/console_logs")) at 2.
  rewrite append_assoc, prefix_common. reflexivity.
Qed.

Lemma Worker_read_call_targets env tail rest :
  targets env "GET"
    (Worker.read_call env
       ((SUPABASE_URL env ++ "/rest/v1/console_logs?select=*&order=created_at.desc&limit="
         ++ tail) ++ rest)).
Proof.
  repeat split. unfold collection. cbn [call_url Worker.read_call].
  apply prefix_append_r. rewrite prefix_common. reflexivity.
Qed.

Lemma Part000_read_call_targets env tail rest :
  targets env "GET"
    (Part000.read_call env
       ((SUPABASE_URL env ++ "/rest/v1/console_logs?select=*&order=created_at.desc&limit="
         ++ tail) ++ rest)).
Proof.
  repeat split. unfold collection. cbn [call_url Part000.read_call].
  apply prefix_append_r. rewrite prefix_common. reflexivity.
Qed.

Lemma batch_calls_targets env hs clock logs :
  forall k, Forall (targets env "POST") (batch_calls env hs clock k logs).
Proof.
  induction logs as [| log rest IH]; intros k; simpl; [constructor |].
  destruct (nullish log); [apply IH |].
  constructor; [apply insert_call_targets | apply IH].
Qed.

Ltac no_call :=
  exists []; rewrite app_nil_r; cbn [List.length fst snd status];
  repeat split; auto; try constructor; simpl; auto; lia.

Ltac one_call :=
  eexists [_]; cbn [List.length fst snd status calls console];
  repeat split; auto;
  try (constructor; [| constructor]);
  try apply insert_call_targets;
  simpl; auto.

Lemma Worker_read_call_targets' env tail :
  targets env "GET"
    (Worker.read_call env
       (SUPABASE_URL env ++ "/rest/v1/console_logs?select=*&order=created_at.desc&limit="
        ++ tail)).
Proof.
  rewrite <- (append_empty_r (SUPABASE_URL env ++ _)). apply Worker_read_call_targets.
Qed.

Lemma Part000_read_call_targets' env tail :
  targets env "GET"
    (Part000.read_call env
       (SUPABASE_URL env ++ "/rest/v1/console_logs?select=*&order=created_at.desc&limit="
        ++ tail)).
Proof.
  rewrite <- (append_empty_r (SUPABASE_URL env ++ _)). apply Part000_read_call_targets.
Qed.

Ltac one_call_by T :=
  eexists [_]; cbn [List.length fst snd status calls console];
  repeat split; auto; try (constructor; [exact T | constructor]); simpl; auto.

Section Keeps.

Variables (host : Host) (request : Request) (env : Env).

Lemma Worker_handleGetLogs_keeps :
  keeps env "GET" 1 [200] (Worker.handleGetLogs host request env).
Proof.
  intros w. unfold Worker.handleGetLogs. unmonad. cbn [calls ticks console].
  match goal with
  | |- context [Worker.read_call env ?q] =>
      set (c := Worker.read_call env q); assert (T : targets env "GET" c)
  end.
  { subst c. destruct (truthy _);
      [apply Worker_read_call_targets | apply Worker_read_call_targets']. }
  clearbody c. repeat split_next; one_call_by T.
Qed.

Lemma Part000_handleGetLogs_keeps :
  keeps env "GET" 1 [200] (Part000.handleGetLogs host request env).
Proof.
  intros w. unfold Part000.handleGetLogs. unmonad. cbn [calls ticks console].
  match goal with
  | |- context [Part000.read_call env ?q] =>
      set (c := Part000.read_call env q); assert (T : targets env "GET" c)
  end.
  { subst c. destruct (truthy _);
      [apply Part000_read_call_targets | apply Part000_read_call_targets']. }
  clearbody c. repeat split_next; one_call_by T.
Qed.

Lemma Worker_handlePostLog_keeps :
  keeps env "POST" 1 [201; 400] (Worker.handlePostLog host request env).
Proof.
  intros w. unfold Worker.handlePostLog. unmonad.
  destruct (json request) as [body | e]; [| no_call].
  destruct (nullish body) eqn:N.
  - destruct body; try discriminate N; no_call.
  - rewrite !(get_prop body _ N).
    destruct (truthy (prop body "level")); cbn [negb]; [| no_call].
    destruct (truthy (prop body "message")); cbn [negb]; [| no_call].
    rewrite (payload_of_readable host _ _ _ N). cbn [calls ticks console].
    repeat split_next; one_call.
Qed.

Lemma Part000_handlePostLog_keeps :
  keeps env "POST" 1 [201; 400] (Part000.handlePostLog host request env).
Proof.
  intros w. unfold Part000.handlePostLog. unmonad.
  destruct (json request) as [body | e]; [| no_call].
  destruct (nullish body) eqn:N.
  - destruct body; try discriminate N; no_call.
  - rewrite !(get_prop body _ N).
    destruct (truthy (prop body "level")); cbn [negb]; [| no_call].
    destruct (truthy (prop body "message")); cbn [negb]; [| no_call].
    rewrite (payload_of_readable host _ _ _ N). cbn [calls ticks console].
    repeat split_next; one_call.
Qed.

Lemma settled_keeps logs w :
  (List.length logs <= 100)%nat ->
  exists new,
    calls (snd (allSettled_map
                  (fun log => Shared.insertSingleLog host env log (headers request)) logs w))
    = (calls w ++ new)%list
    /\ console (snd (allSettled_map
                       (fun log => Shared.insertSingleLog host env log (headers request))
                       logs w))
       = console w
    /\ (List.length new <= 100)%nat
    /\ Forall (targets env "POST") new.
Proof.
  intros B.
  destruct (allSettled_map _ logs w) as [rs w'] eqn:E.
  destruct (allSettled_insert host env (headers request) _ _ _ _ E) as (_ & C & K & _).
  exists (batch_calls env (headers request) (clock host) (ticks w) logs).
  cbn [snd]. repeat split; trivial.
  - pose proof (batch_calls_count env (headers request) (clock host) logs (ticks w)). lia.
  - apply batch_calls_targets.
Qed.

Lemma slice0_bound {A : Type} (l : list A) : (List.length (slice0 100 l) <= 100)%nat.
Proof. unfold slice0. rewrite length_firstn. apply Nat.le_min_l. Qed.

Lemma Worker_handlePostBatch_keeps :
  keeps env "POST" 100 [201; 400] (Worker.handlePostBatch host request env).
Proof.
  intros w. unfold Worker.handlePostBatch. unmonad.
  destruct (json request) as [body | e]; [| no_call].
  destruct (get body "logs") as [logs_field | e]; [| no_call].
  destruct (negb (truthy logs_field) || negb (Array_isArray logs_field)); [no_call |].
  destruct (settled_keeps (slice0 100 (elements logs_field)) w (slice0_bound _))
    as (new & C & K & L & T).
  destruct (allSettled_map _ (slice0 100 (elements logs_field)) w) as [rs w'].
  cbn [fst snd] in *. exists new. cbn [status Worker.jsonResponse]. simpl. auto 10.
Qed.

Lemma Part000_handlePostBatch_keeps :
  keeps env "POST" 100 [201; 400] (Part000.handlePostBatch host request env).
Proof.
  intros w. unfold Part000.handlePostBatch. unmonad.
  destruct (json request) as [body | e]; [| no_call].
  destruct (get body "logs") as [logs_field | e]; [| no_call].
  destruct (negb (truthy logs_field) || negb (Array_isArray logs_field)
            || (List.length (elements logs_field) =? 0)%nat); [no_call |].
  destruct (settled_keeps (slice0 100 (elements logs_field)) w (slice0_bound _))
    as (new & C & K & L & T).
  destruct (allSettled_map _ (slice0 100 (elements logs_field)) w) as [rs w'].
  cbn [fst snd] in *. exists new. cbn [status Part000.jsonResponse]. simpl. auto 10.
Qed.

End Keeps.

Lemma summary_weaken env request limit limit' outcome :
  (limit <= limit')%nat ->
  summary env request limit outcome -> summary env request limit' outcome.
Proof.
  intros L (r & E & S & B & T & C). exists r. repeat split; trivial. lia.
Qed.

Lemma health_keeps host env m respond :
  (forall v, status (respond v 200) = 200) ->
  keeps env m 0 [200]
    (bind (Date_now host) (fun now => ret (respond (health_report now) 200))).
Proof.
  intros S w. unmonad. exists []. rewrite app_nil_r. cbn [snd fst calls console].
  rewrite S. repeat split; auto. now left.
Qed.

(** The guard of [fetch] around a handler. *)
Lemma guarded_summary env request limit allowed (h : M Response)
    (on_error : error -> M Response) :
  keeps env (method request) limit allowed h ->
  (forall s, In s allowed -> In s statuses /\ s <> 500) ->
  (forall e w, exists r,
      on_error e w = (Ok r, mkWorld (ticks w) (calls w) (console w ++ [e])%list)
      /\ status r = 500 /\ body r = error_body (message e)) ->
  summary env request limit (try_catch h on_error start).
Proof.
  intros K A H. destruct (K start) as (new & C & Q & L & T & S).
  unfold try_catch. destruct (h start) as [[r | e] w]; cbn [fst snd] in *.
  - exists r. destruct (A _ S) as [I N]. cbn [fst snd]. rewrite C, Q.
    repeat split; auto.
  - destruct (H e w) as (r & E & S5 & B). rewrite E. exists r. cbn [fst snd calls console].
    rewrite C, Q, S5. repeat split; auto.
    + unfold statuses. simpl. auto 10.
    + right. split; [reflexivity |]. exists e. split; [reflexivity | exact B].
Qed.

Lemma Worker_on_error_logs e w :
  exists r,
    Worker.on_error e w = (Ok r, mkWorld (ticks w) (calls w) (console w ++ [e])%list)
    /\ status r = 500 /\ body r = error_body (message e).
Proof. unfold Worker.on_error. unmonad. eexists. repeat split. Qed.

Lemma Part000_on_error_logs e w :
  exists r,
    Part000.on_error e w = (Ok r, mkWorld (ticks w) (calls w) (console w ++ [e])%list)
    /\ status r = 500 /\ body r = error_body (message e).
Proof. unfold Part000.on_error. unmonad. eexists. repeat split. Qed.

Lemma allowed_200 s : In s [200] -> In s statuses /\ s <> 500.
Proof. intros [<- | []]. split; [simpl; auto | discriminate]. Qed.

Lemma allowed_writes s : In s [201; 400] -> In s statuses /\ s <> 500.
Proof. intros [<- | [<- | []]]; (split; [simpl; auto 10 | discriminate]). Qed.

Lemma quiet_summary env request limit body s cors :
  In s statuses -> s <> 500 ->
  summary env request limit (Ok (mkResponse body s cors), start).
Proof.
  intros I N. eexists. cbn [fst snd calls console start status].
  repeat split; auto; try constructor. apply Nat.le_0_l.
Qed.

Lemma Worker_fetch_summary host request env :
  summary env request (call_limit request) (run (Worker.fetch host request env)).
Proof.
  unfold run, Worker.fetch, call_limit, Worker.health.
  destruct (String.eqb_spec (method request) "OPTIONS") as [O | O].
  - apply quiet_summary; [simpl; auto | discriminate].
  - cbv zeta.
    destruct (String.eqb_spec (pathname request) "/health") as [Hh | Hh].
    + rewrite Hh. apply summary_weaken with (limit := 0%nat); [lia |].
      apply (guarded_summary env request 0 [200]);
        [apply health_keeps; reflexivity | apply allowed_200 | apply Worker_on_error_logs].
    + destruct (String.eqb_spec (method request) "GET") as [G | G];
        destruct (String.eqb_spec (method request) "POST") as [P | P];
        try (rewrite G in P; discriminate P); cbn [andb].
      * destruct (String.eqb_spec (pathname request) "/logs") as [L | L].
        -- rewrite L. cbn [String.eqb Ascii.eqb Bool.eqb].
           apply (guarded_summary env request 1 [200]);
             [rewrite G; apply Worker_handleGetLogs_keeps | apply allowed_200
             | apply Worker_on_error_logs].
        -- apply summary_weaken with (limit := 0%nat); [destruct (String.eqb _ _); lia |].
           apply (guarded_summary env request 0 [404]);
             [intros w; unmonad; no_call
             | intros s [<- | []]; (split; [simpl; auto 10 | discriminate])
             | apply Worker_on_error_logs].
      * destruct (String.eqb_spec (pathname request) "/logs") as [L | L].
        -- rewrite L. cbn [String.eqb Ascii.eqb Bool.eqb].
           apply (guarded_summary env request 1 [201; 400]);
             [rewrite P; apply Worker_handlePostLog_keeps | apply allowed_writes
             | apply Worker_on_error_logs].
        -- destruct (String.eqb_spec (pathname request) "/logs/batch") as [B | B].
           ++ apply (guarded_summary env request 100 [201; 400]);
                [rewrite P; apply Worker_handlePostBatch_keeps | apply allowed_writes
                | apply Worker_on_error_logs].
           ++ apply summary_weaken with (limit := 0%nat); [lia |].
              apply (guarded_summary env request 0 [404]);
                [intros w; unmonad; no_call
                | intros s [<- | []]; (split; [simpl; auto 10 | discriminate])
                | apply Worker_on_error_logs].
      * apply summary_weaken with (limit := 0%nat); [destruct (String.eqb _ _); lia |].
        apply (guarded_summary env request 0 [404]);
          [intros w; unmonad; no_call
          | intros s [<- | []]; (split; [simpl; auto 10 | discriminate])
          | apply Worker_on_error_logs].
Qed.

Lemma Part000_fetch_summary host request env :
  summary env request (call_limit request) (run (Part000.fetch host request env)).
Proof.
  unfold run, Part000.fetch, call_limit, Part000.health.
  assert (NF : forall (h : M Response),
             h = ret (mkResponse (Plain "Not Found") 404 Part000.CORS_HEADERS) ->
             summary env request 0 (try_catch h Part000.on_error start)).
  { intros h ->.
    apply (guarded_summary env request 0 [404]);
      [intros w; unmonad; no_call
      | intros s [<- | []]; (split; [simpl; auto 10 | discriminate])
      | apply Part000_on_error_logs]. }
  destruct (String.eqb_spec (method request) "OPTIONS") as [O | O].
  - apply quiet_summary; [simpl; auto | discriminate].
  - cbv zeta.
    destruct (String.eqb_spec (method request) "GET") as [G | G];
      destruct (String.eqb_spec (method request) "POST") as [P | P];
      try (rewrite G in P; discriminate P); cbn [andb].
    + destruct (String.eqb_spec (pathname request) "/logs") as [L | L].
      * rewrite L. cbn [String.eqb Ascii.eqb Bool.eqb].
        apply (guarded_summary env request 1 [200]);
          [rewrite G; apply Part000_handleGetLogs_keeps | apply allowed_200
          | apply Part000_on_error_logs].
      * destruct (String.eqb_spec (pathname request) "/health") as [Hh | Hh].
        -- rewrite Hh. apply summary_weaken with (limit := 0%nat); [simpl; lia |].
           apply (guarded_summary env request 0 [200]);
             [apply health_keeps; reflexivity | apply allowed_200
             | apply Part000_on_error_logs].
        -- apply summary_weaken with (limit := 0%nat); [destruct (String.eqb _ _); lia |].
           now apply NF.
    + destruct (String.eqb_spec (pathname request) "/logs") as [L | L].
      * rewrite L. cbn [String.eqb Ascii.eqb Bool.eqb].
        apply (guarded_summary env request 1 [201; 400]);
          [rewrite P; apply Part000_handlePostLog_keeps | apply allowed_writes
          | apply Part000_on_error_logs].
      * destruct (String.eqb_spec (pathname request) "/logs/batch") as [B | B].
        -- apply (guarded_summary env request 100 [201; 400]);
             [rewrite P; apply Part000_handlePostBatch_keeps | apply allowed_writes
             | apply Part000_on_error_logs].
        -- apply summary_weaken with (limit := 0%nat); [lia |]. now apply NF.
    + apply summary_weaken with (limit := 0%nat); [destruct (String.eqb _ _); lia |].
      now apply NF.
Qed.

(** X7.  Whatever the request, the deployment and the host, an invocation
    answers with one of the statuses 200, 201, 204, 400, 404 and 500.  The
    status 500 is never a handler's own: it is always the answer of the
    guard of [fetch] to a thrown error, which is then the one entry of the
    console and whose message is the [error] of the body; with any other
    status the console is empty. *)
Theorem X7_statuses_and_the_console :
  forall (host : Host) (request : Request) (env : Env),
    let told (outcome : result Response * World) :=
      exists r,
        fst outcome = Ok r
        /\ In (status r) [200; 201; 204; 400; 404; 500]
        /\ ((status r <> 500 /\ console (snd outcome) = [])
            \/ (status r = 500
                /\ exists e, console (snd outcome) = [e]
                             /\ body r = JSON_stringify (VObj [("error", VStr (message e))]))) in
    told (run (Worker.fetch host request env))
    /\ told (run (Part000.fetch host request env)).
Proof.
  intros host request env told. subst told. cbv beta. split.
  - destruct (Worker_fetch_summary host request env) as (r & E & S & _ & _ & C).
    exists r. auto.
  - destruct (Part000_fetch_summary host request env) as (r & E & S & _ & _ & C).
    exists r. auto.
Qed.

(** X8.  An invocation issues at most 100 outbound calls, and at most one
    unless the path is [/logs/batch]: however long the [logs] array of a
    batch is, the backend sees no more than 100 inserts for it. *)
Theorem X8_outbound_calls_are_bounded :
  forall (host : Host) (request : Request) (env : Env),
    let calls_of (outcome : result Response * World) := List.length (calls (snd outcome)) in
    (calls_of (run (Worker.fetch host request env)) <= 100)%nat
    /\ (calls_of (run (Part000.fetch host request env)) <= 100)%nat
    /\ (pathname request <> "/logs/batch" ->
        (calls_of (run (Worker.fetch host request env)) <= 1)%nat
        /\ (calls_of (run (Part000.fetch host request env)) <= 1)%nat).
Proof.
  intros host request env calls_of. subst calls_of. cbv beta.
  destruct (Worker_fetch_summary host request env) as (_ & _ & _ & W & _).
  destruct (Part000_fetch_summary host request env) as (_ & _ & _ & P & _).
  unfold call_limit in W, P.
  destruct (String.eqb_spec (pathname request) "/logs/batch") as [B | B].
  - split; [exact W |]. split; [exact P |]. intros N. contradiction.
  - split; [lia |]. split; [lia |]. intros _. split; assumption.
Qed.

(** X8 at [GET /logs]. *)
Lemma X8_outbound_calls_witness :
  (List.length (calls (snd (run (Worker.fetch accepting
                                   (request0 "GET" "/logs" [] VNull) env0)))) <= 1)%nat.
Proof.
  destruct (X8_outbound_calls_are_bounded accepting (request0 "GET" "/logs" [] VNull) env0)
    as (_ & _ & N).
  destruct N as [W _]; [discriminate | exact W].
Defined.

(** X9.  Every outbound call an invocation issues has the method of the
    inbound request, is addressed to [<SUPABASE_URL>/rest/v1/console_logs]
    (the URL starts with it) and carries the deployment's key in [apikey]
    and in [Authorization: Bearer].  So a [GET] request never writes, an
    insert is only ever the effect of a [POST], and nothing is sent to any
    other address. *)
Theorem X9_outbound_calls_keep_to_the_collection :
  forall (host : Host) (request : Request) (env : Env),
    let disciplined (c : Call) :=
      call_method c = method request
      /\ String.prefix (SUPABASE_URL env ++ "/rest/v1/console_logs") (call_url c) = true
      /\ assoc "apikey" (call_headers c) = Some (SUPABASE_ANON_KEY env)
      /\ assoc "Authorization" (call_headers c) = Some ("Bearer " ++ SUPABASE_ANON_KEY env) in
    Forall disciplined (calls (snd (run (Worker.fetch host request env))))
    /\ Forall disciplined (calls (snd (run (Part000.fetch host request env)))).
Proof.
  intros host request env disciplined. subst disciplined.
  destruct (Worker_fetch_summary host request env) as (_ & _ & _ & _ & W & _).
  destruct (Part000_fetch_summary host request env) as (_ & _ & _ & _ & P & _).
  split; [exact W | exact P].
Qed.

(* ---------------------------------------------------------------------- *)
(** *** The payload *)

(** X10.  The payload built for a write has exactly the ten properties of
    the literal, in its order.  [session_id], [category], [source] and
    [meta] are the entry's own value when that is truthy and otherwise the
    defaults ["unknown"], ["system"], ["Unknown"] and [{}], so they are
    never falsy in what is sent; [level], [message] and [stack_trace] are
    passed through as they are (undefined included); [user_agent] and
    [url] fall back on the request's [User-Agent] and [Referer] headers,
    and on [null] when the header is missing too.  Building it reads the
    clock once and calls nothing. *)
Theorem X10_payload_defaults :
  forall (host : Host) (log : value) (hs : Headers) (w w' : World) (payload : value),
    Shared.payload_of host log hs w = (Ok payload, w') ->
    exists props,
      payload = VObj props
      /\ map fst props = payload_keys
      /\ (forall k d,
             In (k, d) [ ("session_id", VStr "unknown"); ("category", VStr "system");
                         ("source", VStr "Unknown"); ("meta", VObj []) ] ->
             lookup k props = (if truthy (prop log k) then prop log k else d)
             /\ truthy (lookup k props) = true)
      /\ (forall k, In k ["level"; "message"; "stack_trace"] -> lookup k props = prop log k)
      /\ lookup "user_agent" props
         = (if truthy (prop log "user_agent") then prop log "user_agent"
            else nullable (Headers_get hs "User-Agent"))
      /\ lookup "url" props
         = (if truthy (prop log "url") then prop log "url"
            else nullable (Headers_get hs "Referer"))
      /\ w' = mkWorld (S (ticks w)) (calls w) (console w).
Proof.
  intros host log hs w w' payload E.
  assert (N : nullish log = false).
  { destruct (nullish log) eqn:N; [| reflexivity].
    destruct (payload_of_nullish host hs log w N) as [e E']. congruence. }
  rewrite (payload_of_readable host hs log w N) in E. injection E as <- <-.
  eexists. split; [reflexivity |]. split; [reflexivity |].
  split; [| split; [| repeat split]].
  - intros k d [H | [H | [H | [H | []]]]]; injection H as <- <-;
      cbn [lookup String.eqb Ascii.eqb Bool.eqb]; unfold or_else;
      (destruct (truthy (prop log _)) eqn:T; split; [reflexivity | assumption
                                                    | reflexivity | reflexivity]).
  - intros k [<- | [<- | [<- | []]]]; reflexivity.
Qed.

(** X10 at an entry that has only a message, from a request without a
    [Referer]. *)
Lemma X10_payload_witness :
  exists props,
    fst (Shared.payload_of accepting (VObj [("message", VStr "m")])
           [("user-agent", "curl/8")] start) = Ok (VObj props)
    /\ lookup "session_id" props = VStr "unknown"
    /\ lookup "level" props = VUndefined
    /\ lookup "user_agent" props = VStr "curl/8"
    /\ lookup "url" props = VNull.
Proof.
  destruct (X10_payload_defaults accepting (VObj [("message", VStr "m")])
              [("user-agent", "curl/8")] start _ _ eq_refl)
    as (props & E & _ & D & P & U & R & _).
  exists props. injection E as <-. repeat split.
Defined.

Lemma In_read_keys k :
  In k read_keys ->
  k = "session_id" \/ k = "level" \/ k = "category" \/ k = "message" \/ k = "source"
  \/ k = "meta" \/ k = "stack_trace" \/ k = "user_agent" \/ k = "url".
Proof. simpl. intuition. Qed.

(** X11.  What is sent for an entry depends on nothing but the nine
    properties the literal reads: two readable entries that agree on those
    nine, whatever else they contain ([id], [created_at], any other
    property, of any shape), yield the same payload, the same outbound
    call and the same outcome.  No other client property reaches the
    backend. *)
Theorem X11_only_the_read_properties_matter :
  forall (host : Host) (env : Env) (hs : Headers) (a b : value) (w : World),
    same_read_properties a b ->
    Shared.payload_of host a hs w = Shared.payload_of host b hs w
    /\ Shared.insertSingleLog host env a hs w = Shared.insertSingleLog host env b hs w.
Proof.
  intros host env hs a b w (Na & Nb & P).
  assert (E : Shared.payload_of host a hs w = Shared.payload_of host b hs w).
  { rewrite !payload_of_readable by assumption. unfold payload_at.
    rewrite !(P "session_id"), !(P "level"), !(P "category"), !(P "message"),
      !(P "source"), !(P "meta"), !(P "stack_trace"), !(P "user_agent"), !(P "url")
      by (simpl; auto 10).
    reflexivity. }
  split; [exact E |].
  unfold Shared.insertSingleLog. unfold bind at 1 3. now rewrite E.
Qed.

(** X11 at an entry decorated with [id] and [created_at]. *)
Lemma X11_only_the_read_properties_witness :
  Shared.insertSingleLog accepting env0 decorated browser start
  = Shared.insertSingleLog accepting env0 plain browser start.
Proof.
  apply (X11_only_the_read_properties_matter accepting env0 browser decorated plain start).
  repeat split.
  intros k H. apply In_read_keys in H.
  repeat (destruct H as [-> | H]; [reflexivity |]). subst k. reflexivity.
Defined.

(* ---------------------------------------------------------------------- *)
(** *** The accounts of a batch *)

Lemma accepted_bound host cs : forall i, (accepted host i cs <= List.length cs)%nat.
Proof.
  induction cs as [| c cs IH]; intros i; simpl; [lia |].
  specialize (IH (S i)). destruct (accepts host i c); lia.
Qed.

(** X12.  The report of a batch is an exact account of its first 100
    entries: [saved] counts the calls the backend accepted, and [failed]
    counts the entries that could not be read ([null], for which nothing
    is sent) together with the calls that were refused or never answered.
    A failure is never more than a count: when the backend accepts no
    call at all the answer is still status 201, with [saved] 0 and
    [failed] equal to [total]. *)
Theorem X12_batch_report_is_an_exact_account :
  forall (host : Host) (request : Request) (env : Env) (body : value) (items : list value),
    method request = "POST" ->
    pathname request = "/logs/batch" ->
    json request = Ok body ->
    get body "logs" = Ok (VArr items) ->
    let entries := firstn 100 items in
    let sent := batch_calls env (headers request) (clock host) 0 entries in
    let saved := accepted host 0 sent in
    let failed := (unreadable entries + (List.length sent - saved))%nat in
    fst (run (Worker.fetch host request env))
    = Ok (Worker.jsonResponse (batch_report (List.length entries) saved failed) 201)
    /\ (items <> [] ->
        fst (run (Part000.fetch host request env))
        = Ok (Part000.jsonResponse (batch_report (List.length entries) saved failed) 201))
    /\ ((forall i c, accepts host i c = false) ->
        saved = 0%nat /\ failed = List.length entries).
Proof.
  intros host request env body items Hm Hp Hj Hl entries sent saved failed.
  pose proof (batch_calls_count env (headers request) (clock host) entries 0) as Cnt.
  pose proof (accepted_bound host sent 0) as Bnd.
  assert (T : Nat.min (List.length items) 100 = List.length entries)
    by (subst entries; rewrite length_firstn; apply Nat.min_comm).
  fold sent in Cnt.
  split; [| split].
  - destruct (Worker_handlePostBatch_report host request env body items Hj Hl start)
      as (s & f & w & E & S & _ & _ & A).
    unfold run.
    rewrite (Worker_batch_route host request env Hm Hp), (try_catch_ok _ _ _ _ _ E).
    cbn [fst]. cbn [calls start ticks List.length] in A. fold entries in A. fold sent in A.
    rewrite T in *. do 3 f_equal; [exact A | subst failed saved; lia].
  - intros NE.
    destruct (Part000_handlePostBatch_report host request env body items Hj Hl start NE)
      as (s & f & w & E & S & _ & _ & A).
    unfold run.
    rewrite (Part000_batch_route host request env Hm Hp), (try_catch_ok _ _ _ _ _ E).
    cbn [fst]. cbn [calls start ticks List.length] in A. fold entries in A. fold sent in A.
    rewrite T in *. do 3 f_equal; [exact A | subst failed saved; lia].
  - intros Off.
    assert (Z0 : forall cs i, accepted host i cs = 0%nat).
    { induction cs as [| c cs IH]; intros i; simpl; [reflexivity |].
      now rewrite Off, IH. }
    subst failed saved. rewrite Z0. split; [reflexivity | lia].
Qed.

(** X12 at three entries, one [null], sent to a backend that is offline. *)
Lemma X12_batch_report_witness :
  fst (run (Worker.fetch offline (batch_of three_entries) env0))
  = Ok (Worker.jsonResponse (batch_report 3 0 3) 201).
Proof.
  destruct (X12_batch_report_is_an_exact_account offline (batch_of three_entries) env0
              (VObj [("logs", VArr three_entries)]) three_entries
              eq_refl eq_refl eq_refl eq_refl) as (W & _ & _).
  exact W.
Defined.

(* ---------------------------------------------------------------------- *)
(** *** The session filter *)

Lemma hex_digits_are_unreserved c :
  unreserved (hex_digit (nat_of_ascii c / 16)) = true
  /\ unreserved (hex_digit (nat_of_ascii c mod 16)) = true.
Proof. destruct c as [[] [] [] [] [] [] [] []]; split; reflexivity. Qed.

Lemma encodeURIComponent_alphabet s :
  all_chars encoded_char (encodeURIComponent s) = true.
Proof.
  induction s as [| c s IH]; [reflexivity |].
  cbn [encodeURIComponent]. destruct (unreserved c) eqn:U; cbn [all_chars].
  - unfold encoded_char at 1. now rewrite U, IH.
  - destruct (hex_digits_are_unreserved c) as [H L].
    unfold encoded_char at 1 2 3. rewrite H, L, IH. reflexivity.
Qed.

Lemma alphabet_excludes (v : string) (c : ascii) :
  In c ["&"; "="; "#"; "?"; "/"; " "; "+"]%char ->
  all_chars encoded_char v = true ->
  all_chars (fun x => negb (Ascii.eqb x c)) v = true.
Proof.
  intros Hc. induction v as [| x v IH]; intros A; [reflexivity |].
  cbn [all_chars] in *. apply andb_prop in A. destruct A as [X A].
  rewrite (IH A), andb_true_r.
  simpl in Hc.
  repeat (destruct Hc as [<- | Hc];
          [match goal with
           | |- context [Ascii.eqb x ?k] => destruct (Ascii.eqb_spec x k) as [-> | _]
           end;
           [vm_compute in X; discriminate X | reflexivity] |]).
  contradiction.
Qed.

(** X13.  The session a caller names cannot alter the reader's query.  When
    [session] is supplied and not empty, the URL of the outbound read ends
    with [&session_id=eq.] followed by a value made only of the characters
    [A-Z a-z 0-9 - _ . ! ~ * ' ( )] and [%]: no [&], [=], [#], [?], [/] or
    space of the session reaches the query as such, so it can add no
    parameter and no second filter. *)
Theorem X13_session_cannot_alter_the_query :
  forall (host : Host) (request : Request) (env : Env) (s : string),
    method request = "GET" ->
    pathname request = "/logs" ->
    searchParams_get (searchParams request) "session" = Some s ->
    s <> "" ->
    let limit := Z.min (number_or (searchParams_get (searchParams request) "limit") 100) 500 in
    let offset := number_or (searchParams_get (searchParams request) "offset") 0 in
    let value := encodeURIComponent s in
    map call_url (calls (snd (run (Worker.fetch host request env))))
    = [SUPABASE_URL env ++ "/rest/v1/console_logs?select=*&order=created_at.desc&limit="
       ++ show host limit ++ "&session_id=eq." ++ value]
    /\ map call_url (calls (snd (run (Part000.fetch host request env))))
       = [SUPABASE_URL env ++ "/rest/v1/console_logs?select=*&order=created_at.desc&limit="
          ++ show host limit ++ "&offset=" ++ show host offset
          ++ "&session_id=eq." ++ value]
    /\ all_chars encoded_char value = true
    /\ (forall c, In c ["&"; "="; "#"; "?"; "/"; " "; "+"]%char ->
        all_chars (fun x => negb (Ascii.eqb x c)) value = true).
Proof.
  intros host request env s Hm Hp Hs NE limit offset value.
  rewrite (Worker_reader_calls host request env Hm Hp),
    (Part000_reader_calls host request env Hm Hp).
  assert (F : session_filter request = "&session_id=eq." ++ encodeURIComponent s).
  { unfold session_filter. rewrite Hs. apply String.eqb_neq in NE. now rewrite NE. }
  rewrite F. cbn [map call_url Worker.read_call Part000.read_call].
  unfold reader_query. rewrite !append_assoc.
  split; [reflexivity |]. split; [reflexivity |].
  split; [apply encodeURIComponent_alphabet |].
  intros c Hc. apply alphabet_excludes; [exact Hc | apply encodeURIComponent_alphabet].
Qed.

(** X13 at a session that tries to add a parameter. *)
Lemma X13_session_witness :
  map call_url
    (calls (snd (run (Part000.fetch accepting
                        (request0 "GET" "/logs" [("session", "x&limit=9 #")] VNull) env0))))
  = ["https://db.example/rest/v1/console_logs?select=*&order=created_at.desc&limit=100&offset=0&session_id=eq.x%26limit%3D9%20%23"].
Proof.
  assert (NE : "x&limit=9 #" <> "") by discriminate.
  destruct (X13_session_cannot_alter_the_query accepting
              (request0 "GET" "/logs" [("session", "x&limit=9 #")] VNull) env0
              "x&limit=9 #" eq_refl eq_refl eq_refl NE)
    as (_ & P & _).
  rewrite P. reflexivity.
Defined.

Lemma percent_decode_plain c rest :
  c <> "%"%char -> percent_decode (String c rest) = String c (percent_decode rest).
Proof.
  intros N. destruct c as [[] [] [] [] [] [] [] []]; try reflexivity.
  now contradiction N.
Qed.

Lemma unhex_hex c :
  ascii_of_nat (16 * unhex (hex_digit (nat_of_ascii c / 16))
                + unhex (hex_digit (nat_of_ascii c mod 16))) = c.
Proof. destruct c as [[] [] [] [] [] [] [] []]; reflexivity. Qed.

(** X14.  The percent-encoding of the session loses nothing: reading the
    escapes [%XY] back gives the session again, so two different sessions
    never yield the same filter. *)
Theorem X14_session_encoding_is_lossless :
  (forall s, percent_decode (encodeURIComponent s) = s)
  /\ (forall a b, encodeURIComponent a = encodeURIComponent b -> a = b).
Proof.
  assert (R : forall s, percent_decode (encodeURIComponent s) = s).
  { induction s as [| c s IH]; [reflexivity |].
    cbn [encodeURIComponent]. destruct (unreserved c) eqn:U.
    - rewrite percent_decode_plain, IH; [reflexivity |].
      intros ->. discriminate U.
    - cbn [percent_decode]. now rewrite unhex_hex, IH. }
  split; [exact R |].
  intros a b E. rewrite <- (R a), <- (R b). now rewrite E.
Qed.

(* ---------------------------------------------------------------------- *)
(** *** Where the two files agree *)

(** X15.  On the write paths the two files do the same thing to the
    outside.  For every [POST /logs], and for every [POST /logs/batch]
    whose [logs] is not the empty array, they issue the same outbound
    calls, read the clock as often, log the same error if any, and answer
    with the same status and, unless that status is 400 (where only the
    wording of the message differs), with the same body. *)
Theorem X15_the_files_agree_on_writes :
  forall (host : Host) (request : Request) (env : Env),
    method request = "POST" ->
    pathname request = "/logs"
    \/ (pathname request = "/logs/batch"
        /\ forall body, json request = Ok body -> get body "logs" <> Ok (VArr [])) ->
    exists rw rp w,
      run (Worker.fetch host request env) = (Ok rw, w)
      /\ run (Part000.fetch host request env) = (Ok rp, w)
      /\ status rw = status rp
      /\ (status rw <> 400 -> body rw = body rp).
Proof.
  intros host request env Hm [Hp | [Hp NE]]; unfold run.
  - rewrite (Worker_single_route host request env Hm Hp),
      (Part000_single_route host request env Hm Hp).
    unfold Worker.handlePostLog, Part000.handlePostLog, Worker.on_error, Part000.on_error.
    unmonad.
    repeat split_next;
      eexists _, _, _; (split; [reflexivity |]); (split; [reflexivity |]);
      (split; [reflexivity |]); intros N; try reflexivity; now contradiction N.
  - rewrite (Worker_batch_route host request env Hm Hp),
      (Part000_batch_route host request env Hm Hp).
    unfold Worker.handlePostBatch, Part000.handlePostBatch, Worker.on_error,
      Part000.on_error.
    unmonad.
    destruct (json request) as [body | e];
      [| eexists _, _, _; repeat split; reflexivity].
    specialize (NE body eq_refl).
    destruct (get body "logs") as [logs_field | e];
      [| eexists _, _, _; repeat split; reflexivity].
    assert (G : (negb (truthy logs_field) || negb (Array_isArray logs_field)
                 || (List.length (elements logs_field) =? 0)%nat)
                = (negb (truthy logs_field) || negb (Array_isArray logs_field))).
    { destruct logs_field as [| | b | n | s | items | props];
        try (cbn [Array_isArray negb]; rewrite !orb_true_r; reflexivity).
      destruct items; [now contradiction NE | reflexivity]. }
    rewrite G.
    destruct (negb (truthy logs_field) || negb (Array_isArray logs_field)).
    + eexists _, _, _. (split; [reflexivity |]); (split; [reflexivity |]).
      split; [reflexivity |]. intros N. now contradiction N.
    + destruct (allSettled_map _ (slice0 100 (elements logs_field)) start) as [rs w'].
      eexists _, _, _. repeat split; reflexivity.
Qed.

(** X15 at an accepted single write. *)
Lemma X15_the_files_agree_witness :
  exists rw rp w,
    run (Worker.fetch accepting (request0 "POST" "/logs" [] plain) env0) = (Ok rw, w)
    /\ run (Part000.fetch accepting (request0 "POST" "/logs" [] plain) env0) = (Ok rp, w)
    /\ status rw = status rp
    /\ (status rw <> 400 -> body rw = body rp).
Proof.
  apply (X15_the_files_agree_on_writes accepting (request0 "POST" "/logs" [] plain) env0
           eq_refl (or_introl eq_refl)).
Defined.

(* ---------------------------------------------------------------------- *)
(** *** The content type *)

Ltac declares_by_cases :=
  intros w; unmonad; repeat split_next; reflexivity.

(** X16.  The content type of every response matches its body.  Every
    answer built by [jsonResponse] (reports, validation errors, the guard's
    500, the health check) carries [Content-Type: application/json], the
    one the function names, and the constructor adds nothing to it.  The
    plain-text ["Not Found"] names no content type, so it carries the
    [text/plain;charset=UTF-8] the constructor gives a string body.  The
    preflight answer has no body and carries no content type. *)
Theorem X16_content_type_follows_the_body :
  forall (host : Host) (request : Request) (env : Env),
    (exists r w, run (Worker.fetch host request env) = (Ok r, w) /\ declares_its_body r)
    /\ (exists r w, run (Part000.fetch host request env) = (Ok r, w) /\ declares_its_body r).
Proof.
  intros host request env.
  assert (W : always declares_its_body (Worker.fetch host request env));
    [| assert (P : always declares_its_body (Part000.fetch host request env));
       [| split; [exact (W start) | exact (P start)]]].
  - unfold Worker.fetch.
    destruct (String.eqb (method request) "OPTIONS").
    + intros w. eexists _, _. split; reflexivity.
    + apply caught_always.
      * repeat match goal with
               | |- answers _ (if ?c then _ else _) => destruct c
               end.
        -- unfold Worker.health. declares_by_cases.
        -- unfold Worker.handleGetLogs. declares_by_cases.
        -- unfold Worker.handlePostLog, Shared.payload_of. declares_by_cases.
        -- unfold Worker.handlePostBatch. declares_by_cases.
        -- declares_by_cases.
      * intros e w. unfold Worker.on_error. unmonad. eexists _, _. split; reflexivity.
  - unfold Part000.fetch.
    destruct (String.eqb (method request) "OPTIONS").
    + intros w. eexists _, _. split; reflexivity.
    + apply caught_always.
      * repeat match goal with
               | |- answers _ (if ?c then _ else _) => destruct c
               end.
        -- unfold Part000.handleGetLogs. declares_by_cases.
        -- unfold Part000.handlePostLog, Shared.payload_of. declares_by_cases.
        -- unfold Part000.handlePostBatch. declares_by_cases.
        -- unfold Part000.health. declares_by_cases.
        -- declares_by_cases.
      * intros e w. unfold Part000.on_error. unmonad. eexists _, _. split; reflexivity.
Qed.

(* ---------------------------------------------------------------------- *)
(** *** One entry of a batch and the others *)

Lemma firstn_around {A : Type} (before after : list A) (x : A) :
  (List.length before < 100)%nat ->
  firstn 100 (before ++ x :: after)
  = (before ++ x :: firstn (99 - List.length before) after)%list.
Proof.
  intros L. rewrite firstn_app, firstn_all2 by lia.
  replace (100 - List.length before)%nat with (S (99 - List.length before)) by lia.
  reflexivity.
Qed.

(** X17.  The entries of a batch are attempted independently of each
    other's contents.  If one readable entry among the first 100 is
    replaced by another readable entry, the outbound calls before it and
    after it are the same calls, in the same places; only the call of that
    entry changes, and it is built from that entry alone (and from the
    reading of the clock that falls to it). *)
Theorem X17_entries_are_attempted_independently :
  forall (host : Host) (request : Request) (env : Env) (body body' : value)
         (before after : list value) (a b : value),
    method request = "POST" ->
    pathname request = "/logs/batch" ->
    json request = Ok body ->
    get body "logs" = Ok (VArr (before ++ a :: after)) ->
    get body' "logs" = Ok (VArr (before ++ b :: after)) ->
    nullish a = false ->
    nullish b = false ->
    (List.length before < 100)%nat ->
    exists pre post,
      let k := List.length pre in
      let around (c : Call) : list Call := (pre ++ c :: post)%list in
      calls (snd (run (Worker.fetch host request env)))
      = around (entry_call host env (headers request) a k)
      /\ calls (snd (run (Worker.fetch host (with_body request body') env)))
         = around (entry_call host env (headers request) b k)
      /\ calls (snd (run (Part000.fetch host request env)))
         = around (entry_call host env (headers request) a k)
      /\ calls (snd (run (Part000.fetch host (with_body request body') env)))
         = around (entry_call host env (headers request) b k).
Proof.
  intros host request env body body' before after a b Hm Hp Hj Hl Hl' Na Nb L.
  assert (NEa : (before ++ a :: after)%list <> []) by (destruct before; discriminate).
  assert (NEb : (before ++ b :: after)%list <> []) by (destruct before; discriminate).
  rewrite (Worker_batch_calls host request env body _ Hm Hp Hj Hl),
    (Part000_batch_calls host request env body _ Hm Hp Hj Hl NEa),
    (Worker_batch_calls host (with_body request body') env body' _ Hm Hp eq_refl Hl'),
    (Part000_batch_calls host (with_body request body') env body' _ Hm Hp eq_refl Hl' NEb).
  cbn [headers with_body].
  rewrite !firstn_around by exact L. rewrite !batch_calls_app.
  cbn [batch_calls]. rewrite Na, Nb. cbn [Nat.add].
  exists (batch_calls env (headers request) (clock host) 0 before),
         (batch_calls env (headers request) (clock host)
            (S (List.length (batch_calls env (headers request) (clock host) 0 before)))
            (firstn (99 - List.length before) after)).
  cbv zeta. unfold entry_call. repeat split.
Qed.

(** X17 at the second entry of a batch of three. *)
Lemma X17_entries_witness :
  exists pre post,
    calls (snd (run (Worker.fetch accepting
                       (batch_of [plain; plain; stamped]) env0)))
    = (pre ++ entry_call accepting env0 browser plain (List.length pre) :: post)%list
    /\ calls (snd (run (Worker.fetch accepting
                          (with_body (batch_of [plain; plain; stamped])
                             (VObj [("logs", VArr [plain; decorated; stamped])])) env0)))
       = (pre ++ entry_call accepting env0 browser decorated (List.length pre) :: post)%list.
Proof.
  destruct (X17_entries_are_attempted_independently accepting
              (batch_of [plain; plain; stamped]) env0
              (VObj [("logs", VArr [plain; plain; stamped])])
              (VObj [("logs", VArr [plain; decorated; stamped])])
              [plain] [stamped] plain decorated
              eq_refl eq_refl eq_refl eq_refl eq_refl eq_refl eq_refl)
    as (pre & post & A & B & _).
  - simpl. lia.
  - exists pre, post. split; [exact A | exact B].
Defined.
